(** * frfix: an LD_PRELOAD shim for Fieldrunners

    A shallow embedding of [frfix.c] and the verification of its
    behaviour: the audio-device redirector, the delay-triggered audio
    callback, and the display/input remapping group.  Both optional groups
    ([FIXDELAY], [CHANGERES]) are taken as compiled in.

    The shim is a set of C functions that share a handful of globals and
    talk to the outside world (the dynamic loader, ALSA, freeglut, the
    host application's callbacks).  It is embedded as follows.

    - [int] and [long] are 32-bit two's-complement integers: the shim is
      built with [-m32], as the game is.  The result of an arithmetic
      operation is reduced with [CInt.wrap], which is what the compiled
      code does where C itself leaves signed overflow undefined.
    - The globals and the function-local [static] pointers form the
      record [shim]; every lookup and call the shim makes to the outside
      is appended to its [log].
    - The outside world is a [world]: it answers [dlsym] lookups and
      gives the results of calls, as a function of the history so far.
      A call out is one event: the callee is not followed into calls it
      may make back into the shim.
    - A C function is a computation in the monad [M]; calling through a
      null function pointer ends the run with [Segv], keeping the state
      the globals had at that point. *)

From Stdlib Require Import ZArith List String Ascii Bool Lia.
Import ListNotations.
Local Open Scope Z_scope.

(** ** Machine integers *)

Module CInt.

Definition INT_MAX : Z := 2147483647.
Definition INT_MIN : Z := -2147483648.

(** Values of type [int] (and [long], [GLint], [GLsizei] on this target). *)
Definition in_int (z : Z) : Prop := INT_MIN <= z <= INT_MAX.

(** Reduction of a mathematical result to 32-bit two's complement. *)
Definition wrap (z : Z) : Z := (z + 2147483648) mod 4294967296 - 2147483648.

Definition mul (a b : Z) : Z := wrap (a * b).
Definition sub (a b : Z) : Z := wrap (a - b).
(** C division truncates toward zero. *)
Definition div (a b : Z) : Z := wrap (Z.quot a b).

End CInt.

(** ** Values that cross the shim's boundary *)

(** The shim's own functions whose address is handed to a real library. *)
Inductive shim_fn : Type :=
| Fake_callback
| Init_manglers
| Faked_kbfunc
| Faked_mousefunc
| Faked_motionfunc.

(** A function pointer: null, a function of the host program or of a real
    library (by address), or one of the shim's own functions. *)
Inductive funptr : Type :=
| NULL
| Host (addr : positive)
| Own (f : shim_fn).

Definition is_null (f : funptr) : bool :=
  match f with NULL => true | _ => false end.

Inductive val : Type :=
| VInt (z : Z)
| VPtr (a : Z)
| VStr (s : string)
| VFun (f : funptr).

(** A call goes through a function pointer, or directly to a library
    function the shim does not define itself. *)
Inductive callee : Type :=
| Ptr (f : funptr)
| Lib (name : string).

Inductive event : Type :=
| Dlsym (sym : string) (res : funptr)
| Call (c : callee) (args : list val)
| AvailDelay (pcm avail delay : Z)
| Printf (delay : Z).

(** ** The function-local [static] pointers caching resolved symbols *)

Inductive slot : Type :=
| S_snd_pcm_open                (* real_func of snd_pcm_open *)
| S_snd_async_add_pcm_handler   (* real_func of snd_async_add_pcm_handler *)
| S_glvp                        (* glvp of init_manglers *)
| S_glutReshapeFunc             (* real_func of glutReshapeFunc *)
| S_glrw                        (* glrw of faked_kbfunc *)
| S_glutKeyboardFunc            (* real_func of glutKeyboardFunc *)
| S_glutMouseFunc               (* real_func of glutMouseFunc *)
| S_glutPassiveMotionFunc.      (* real_func of glutPassiveMotionFunc *)

Definition slot_eqb (a b : slot) : bool :=
  match a, b with
  | S_snd_pcm_open, S_snd_pcm_open
  | S_snd_async_add_pcm_handler, S_snd_async_add_pcm_handler
  | S_glvp, S_glvp
  | S_glutReshapeFunc, S_glutReshapeFunc
  | S_glrw, S_glrw
  | S_glutKeyboardFunc, S_glutKeyboardFunc
  | S_glutMouseFunc, S_glutMouseFunc
  | S_glutPassiveMotionFunc, S_glutPassiveMotionFunc => true
  | _, _ => false
  end.

(** The name each slot is looked up under. *)
Definition symbol (sl : slot) : string :=
  match sl with
  | S_snd_pcm_open => "snd_pcm_open"
  | S_snd_async_add_pcm_handler => "snd_async_add_pcm_handler"
  | S_glvp => "glViewport"
  | S_glutReshapeFunc => "glutReshapeFunc"
  | S_glrw => "glutReshapeWindow"
  | S_glutKeyboardFunc => "glutKeyboardFunc"
  | S_glutMouseFunc => "glutMouseFunc"
  | S_glutPassiveMotionFunc => "glutPassiveMotionFunc"
  end%string.

(** ** Process-wide state *)

Record shim : Type := mkShim {
  statics : slot -> funptr;
  fr_callback : funptr;
  act_w : Z;
  act_h : Z;
  act_xoff : Z;
  act_yoff : Z;
  fs : Z;
  fr_kbfunc : funptr;
  fr_mousefunc : funptr;
  fr_motionfunc : funptr;
  log : list event
}.

(** Zero-initialised globals and statics at process start. *)
Definition shim_init : shim :=
  mkShim (fun _ => NULL) NULL 0 0 0 0 0 NULL NULL NULL [].

Definition set_static (sl : slot) (p : funptr) (s : shim) : shim :=
  mkShim (fun x => if slot_eqb x sl then p else statics s x)
         (fr_callback s) (act_w s) (act_h s) (act_xoff s) (act_yoff s) (fs s)
         (fr_kbfunc s) (fr_mousefunc s) (fr_motionfunc s) (log s).

Definition set_fr_callback (p : funptr) (s : shim) : shim :=
  mkShim (statics s) p (act_w s) (act_h s) (act_xoff s) (act_yoff s) (fs s)
         (fr_kbfunc s) (fr_mousefunc s) (fr_motionfunc s) (log s).

Definition set_act_w (z : Z) (s : shim) : shim :=
  mkShim (statics s) (fr_callback s) z (act_h s) (act_xoff s) (act_yoff s) (fs s)
         (fr_kbfunc s) (fr_mousefunc s) (fr_motionfunc s) (log s).

Definition set_act_h (z : Z) (s : shim) : shim :=
  mkShim (statics s) (fr_callback s) (act_w s) z (act_xoff s) (act_yoff s) (fs s)
         (fr_kbfunc s) (fr_mousefunc s) (fr_motionfunc s) (log s).

Definition set_act_xoff (z : Z) (s : shim) : shim :=
  mkShim (statics s) (fr_callback s) (act_w s) (act_h s) z (act_yoff s) (fs s)
         (fr_kbfunc s) (fr_mousefunc s) (fr_motionfunc s) (log s).

Definition set_act_yoff (z : Z) (s : shim) : shim :=
  mkShim (statics s) (fr_callback s) (act_w s) (act_h s) (act_xoff s) z (fs s)
         (fr_kbfunc s) (fr_mousefunc s) (fr_motionfunc s) (log s).

Definition set_fs (z : Z) (s : shim) : shim :=
  mkShim (statics s) (fr_callback s) (act_w s) (act_h s) (act_xoff s) (act_yoff s) z
         (fr_kbfunc s) (fr_mousefunc s) (fr_motionfunc s) (log s).

Definition set_fr_kbfunc (p : funptr) (s : shim) : shim :=
  mkShim (statics s) (fr_callback s) (act_w s) (act_h s) (act_xoff s) (act_yoff s) (fs s)
         p (fr_mousefunc s) (fr_motionfunc s) (log s).

Definition set_fr_mousefunc (p : funptr) (s : shim) : shim :=
  mkShim (statics s) (fr_callback s) (act_w s) (act_h s) (act_xoff s) (act_yoff s) (fs s)
         (fr_kbfunc s) p (fr_motionfunc s) (log s).

Definition set_fr_motionfunc (p : funptr) (s : shim) : shim :=
  mkShim (statics s) (fr_callback s) (act_w s) (act_h s) (act_xoff s) (act_yoff s) (fs s)
         (fr_kbfunc s) (fr_mousefunc s) p (log s).

Definition emit (e : event) (s : shim) : shim :=
  mkShim (statics s) (fr_callback s) (act_w s) (act_h s) (act_xoff s) (act_yoff s) (fs s)
         (fr_kbfunc s) (fr_mousefunc s) (fr_motionfunc s) (log s ++ [e]).

(** ** The outside world *)

(** Each answer may depend on everything the shim has done so far. *)
Record world : Type := mkWorld {
  (** [dlsym(RTLD_NEXT, sym)] *)
  dlsym_next : list event -> string -> funptr;
  (** the [int] or pointer a call returns *)
  call_result : list event -> callee -> list val -> Z;
  (** what [snd_pcm_avail_delay] leaves in [avail] and [delay] *)
  pcm_avail_delay : list event -> Z -> Z * Z
}.

(** ** The monad of shim computations *)

Inductive outcome (A : Type) : Type :=
| Done (a : A) (s : shim)
| Segv (s : shim).
Arguments Done {A} a s.
Arguments Segv {A} s.

Definition M (A : Type) : Type := shim -> outcome A.

Definition ret {A} (a : A) : M A := fun s => Done a s.

Definition bind {A B} (m : M A) (k : A -> M B) : M B :=
  fun s => match m s with
           | Done a s1 => k a s1
           | Segv s1 => Segv s1
           end.

Declare Scope shim_scope.
Delimit Scope shim_scope with shim.
Notation "x <- m ;; k" := (bind m (fun x => k))
  (at level 61, m at next level, right associativity) : shim_scope.
Notation "m ;; k" := (bind m (fun _ => k))
  (at level 61, right associativity) : shim_scope.
Local Open Scope shim_scope.

(** The state a run ends in, whether it returned or crashed. *)
Definition final {A} (o : outcome A) : shim :=
  match o with Done _ s => s | Segv s => s end.

Definition returned {A} (o : outcome A) : option A :=
  match o with Done a _ => Some a | Segv _ => None end.

Definition load {A} (f : shim -> A) : M A := fun s => Done (f s) s.
Definition store (f : shim -> shim) : M unit := fun s => Done tt (f s).

(** ** The shim's functions *)

Section Shim.

(** The world the process runs in, and the build's [-DFIXDELAY=n] and
    [-DLOGDELAY] settings. *)
Variable W : world.
Variable FIXDELAY : Z.
Variable LOGDELAY : bool.

Definition dlsym (sym : string) : M funptr :=
  fun s => let p := dlsym_next W (log s) sym in
           Done p (emit (Dlsym sym p) s).

Definition call (c : callee) (args : list val) : M Z :=
  fun s => match c with
           | Ptr NULL => Segv s
           | _ => Done (call_result W (log s) c args) (emit (Call c args) s)
           end.

(** [if (!slot) slot = dlsym(RTLD_NEXT, "...");] then the slot's value. *)
Definition resolve (sl : slot) : M funptr :=
  p <- load (fun s => statics s sl) ;;
  if is_null p then
    q <- dlsym (symbol sl) ;;
    store (set_static sl q) ;;
    ret q
  else ret p.

Definition snd_pcm_open (pcm : Z) (name : string) (stream mode : Z) : M Z :=
  real_func <- resolve S_snd_pcm_open ;;
  call (Ptr real_func) [VPtr pcm; VStr "default"; VInt stream; VInt mode].

Definition snd_pcm_avail_delay (pcm : Z) : M (Z * Z) :=
  fun s => let r := pcm_avail_delay W (log s) pcm in
           Done r (emit (AvailDelay pcm (fst r) (snd r)) s).

Definition fake_callback (ahandler : Z) : M unit :=
  pcm <- call (Lib "snd_async_handler_get_pcm") [VPtr ahandler] ;;
  ad <- snd_pcm_avail_delay pcm ;;
  (if LOGDELAY then store (emit (Printf (snd ad))) else ret tt) ;;
  if snd ad <? FIXDELAY then
    cb <- load fr_callback ;;
    call (Ptr cb) [VPtr ahandler] ;;
    ret tt
  else ret tt.

Definition snd_async_add_pcm_handler
           (handler pcm : Z) (callback : funptr) (private_data : Z) : M Z :=
  real_func <- resolve S_snd_async_add_pcm_handler ;;
  store (set_fr_callback callback) ;;
  call (Ptr real_func)
       [VPtr handler; VPtr pcm; VFun (Own Fake_callback); VPtr private_data].

Definition init_manglers (w h : Z) : M unit :=
  glvp <- resolve S_glvp ;;
  (if w =? CInt.div (CInt.mul h 16) 9 then
     store (set_act_w w) ;;
     store (set_act_h h) ;;
     store (set_act_yoff 0) ;;
     store (set_act_xoff 0)
   else if w <? CInt.div (CInt.mul h 16) 9 then
     store (set_act_w w) ;;
     store (set_act_h (CInt.div (CInt.mul w 9) 16)) ;;
     ah <- load act_h ;;
     store (set_act_yoff (CInt.div (CInt.sub h ah) 2)) ;;
     store (set_act_xoff 0)
   else
     store (set_act_w (CInt.div (CInt.mul h 16) 9)) ;;
     store (set_act_h h) ;;
     store (set_act_yoff 0) ;;
     aw <- load act_w ;;
     store (set_act_xoff (CInt.div (CInt.sub w aw) 2))) ;;
  x <- load act_xoff ;;
  y <- load act_yoff ;;
  aw <- load act_w ;;
  ah <- load act_h ;;
  call (Ptr glvp) [VInt x; VInt y; VInt aw; VInt ah] ;;
  ret tt.

Definition glutReshapeFunc (func : funptr) : M unit :=
  real_func <- resolve S_glutReshapeFunc ;;
  call (Ptr real_func) [VFun (Own Init_manglers)] ;;
  ret tt.

Definition glViewport (x y width height : Z) : M unit := ret tt.
Definition glutReshapeWindow (width height : Z) : M unit := ret tt.

Definition key_code (key : ascii) : Z := Z.of_N (N_of_ascii key).

Definition faked_kbfunc (key : ascii) (x y : Z) : M unit :=
  glrw <- resolve S_glrw ;;
  if Ascii.eqb key "q" then
    call (Lib "glutLeaveMainLoop") [] ;;
    ret tt
  else if Ascii.eqb key "f" then
    f <- load fs ;;
    if negb (f =? 0) then
      call (Ptr glrw) [VInt 1280; VInt 720] ;;
      store (set_fs 0)
    else
      call (Lib "glutFullScreen") [] ;;
      store (set_fs 1)
  else
    cb <- load fr_kbfunc ;;
    call (Ptr cb) [VInt (key_code key); VInt x; VInt y] ;;
    ret tt.

Definition glutKeyboardFunc (func : funptr) : M unit :=
  real_func <- resolve S_glutKeyboardFunc ;;
  store (set_fr_kbfunc func) ;;
  call (Ptr real_func) [VFun (Own Faked_kbfunc)] ;;
  ret tt.

Definition faked_mousefunc (button state x y : Z) : M unit :=
  cb <- load fr_mousefunc ;;
  xo <- load act_xoff ;;
  yo <- load act_yoff ;;
  call (Ptr cb) [VInt button; VInt state;
                 VInt (CInt.sub x xo); VInt (CInt.sub y yo)] ;;
  ret tt.

Definition faked_motionfunc (x y : Z) : M unit :=
  cb <- load fr_motionfunc ;;
  xo <- load act_xoff ;;
  yo <- load act_yoff ;;
  call (Ptr cb) [VInt (CInt.sub x xo); VInt (CInt.sub y yo)] ;;
  ret tt.

Definition glutMouseFunc (func : funptr) : M unit :=
  real_func <- resolve S_glutMouseFunc ;;
  store (set_fr_mousefunc func) ;;
  call (Ptr real_func) [VFun (Own Faked_mousefunc)] ;;
  ret tt.

Definition glutPassiveMotionFunc (func : funptr) : M unit :=
  real_func <- resolve S_glutPassiveMotionFunc ;;
  store (set_fr_motionfunc func) ;;
  call (Ptr real_func) [VFun (Own Faked_motionfunc)] ;;
  ret tt.

(** *** Runs of the process *)

(** What can enter the shim: the host calling an interposed function,
    or a real library firing one of the callbacks the shim installed. *)
Inductive op : Type :=
| Op_snd_pcm_open (pcm : Z) (name : string) (stream mode : Z)
| Op_fake_callback (ahandler : Z)
| Op_snd_async_add_pcm_handler
    (handler pcm : Z) (callback : funptr) (private_data : Z)
| Op_init_manglers (w h : Z)
| Op_glutReshapeFunc (func : funptr)
| Op_glViewport (x y width height : Z)
| Op_glutReshapeWindow (width height : Z)
| Op_faked_kbfunc (key : ascii) (x y : Z)
| Op_glutKeyboardFunc (func : funptr)
| Op_faked_mousefunc (button state x y : Z)
| Op_faked_motionfunc (x y : Z)
| Op_glutMouseFunc (func : funptr)
| Op_glutPassiveMotionFunc (func : funptr).

Definition exec (o : op) : M unit :=
  match o with
  | Op_snd_pcm_open pcm name stream mode =>
      snd_pcm_open pcm name stream mode ;; ret tt
  | Op_fake_callback ahandler => fake_callback ahandler
  | Op_snd_async_add_pcm_handler handler pcm callback private_data =>
      snd_async_add_pcm_handler handler pcm callback private_data ;; ret tt
  | Op_init_manglers w h => init_manglers w h
  | Op_glutReshapeFunc func => glutReshapeFunc func
  | Op_glViewport x y width height => glViewport x y width height
  | Op_glutReshapeWindow width height => glutReshapeWindow width height
  | Op_faked_kbfunc key x y => faked_kbfunc key x y
  | Op_glutKeyboardFunc func => glutKeyboardFunc func
  | Op_faked_mousefunc button state x y => faked_mousefunc button state x y
  | Op_faked_motionfunc x y => faked_motionfunc x y
  | Op_glutMouseFunc func => glutMouseFunc func
  | Op_glutPassiveMotionFunc func => glutPassiveMotionFunc func
  end.

(** A run is a sequence of entries; a crash ends it. *)
Fixpoint run (os : list op) : M unit :=
  match os with
  | [] => ret tt
  | o :: rest => exec o ;; run rest
  end.

End Shim.

(** ** Observing a run *)

Definition funptr_eq_dec (a b : funptr) : {a = b} + {a <> b}.
Proof. repeat decide equality. Defined.

Definition callee_eq_dec (a b : callee) : {a = b} + {a <> b}.
Proof.
  decide equality; [apply funptr_eq_dec | apply string_dec].
Defined.

(** The events a computation started in [s] added by the time it is in [s']. *)
Definition new_events (s s' : shim) : list event :=
  skipn (List.length (log s)) (log s').

(** Lookups of [sym], and those among them that gave a non-null pointer. *)
Definition is_lookup (sym : string) (e : event) : bool :=
  match e with
  | Dlsym n _ => String.eqb n sym
  | _ => false
  end.

Definition is_resolution (sym : string) (e : event) : bool :=
  match e with
  | Dlsym n res => String.eqb n sym && negb (is_null res)
  | _ => false
  end.

Definition lookups (sym : string) (l : list event) : nat :=
  List.length (filter (is_lookup sym) l).

Definition resolutions (sym : string) (l : list event) : nat :=
  List.length (filter (is_resolution sym) l).

(** The available-count/delay queries made. *)
Definition is_query (e : event) : bool :=
  match e with
  | AvailDelay _ _ _ => true
  | _ => false
  end.

Definition queries (l : list event) : nat := List.length (filter is_query l).

(** The calls made, in order, and the argument lists of those to [c]. *)
Definition is_call (e : event) : bool :=
  match e with
  | Call _ _ => true
  | _ => false
  end.

Definition calls (l : list event) : list event := filter is_call l.

Definition calls_to (c : callee) (l : list event) : list (list val) :=
  flat_map (fun e => match e with
                     | Call c' args => if callee_eq_dec c' c then [args] else []
                     | _ => []
                     end) l.

(** What [resolve] will leave in a slot, and the lookup it performs on the
    way: none when the slot is already populated. *)
Definition target (W : world) (s : shim) (sl : slot) : funptr :=
  if is_null (statics s sl) then dlsym_next W (log s) (symbol sl)
  else statics s sl.

Definition resolving (W : world) (s : shim) (sl : slot) : list event :=
  if is_null (statics s sl)
  then [Dlsym (symbol sl) (dlsym_next W (log s) (symbol sl))]
  else [].

Definition resolved (W : world) (sl : slot) (s : shim) : shim :=
  if is_null (statics s sl)
  then set_static sl (dlsym_next W (log s) (symbol sl))
         (emit (Dlsym (symbol sl) (dlsym_next W (log s) (symbol sl))) s)
  else s.

(** The stored viewport. *)
Definition geometry (s : shim) : Z * Z * Z * Z :=
  (act_w s, act_h s, act_xoff s, act_yoff s).

(** The rectangle stored in [s] is a 16:9 rectangle up to the truncation of
    one integer division, lies inside a [w] by [h] window and is centred
    on both axes. *)
Definition aspect_locked (w h : Z) (s : shim) : Prop :=
  (act_w s = 16 * act_h s / 9 \/ act_h s = 9 * act_w s / 16) /\
  Z.abs (9 * act_w s - 16 * act_h s) < 16 /\
  act_xoff s + act_w s <= w /\
  act_yoff s + act_h s <= h /\
  act_xoff s = (w - act_w s) / 2 /\
  act_yoff s = (h - act_h s) / 2.

(** Letterboxing on at most one axis, and nothing negative. *)
Definition letterboxed (s : shim) : Prop :=
  (act_xoff s = 0 \/ act_yoff s = 0) /\
  0 <= act_w s /\ 0 <= act_h s /\ 0 <= act_xoff s /\ 0 <= act_yoff s.

Definition is_resize (o : op) : bool :=
  match o with
  | Op_init_manglers _ _ => true
  | _ => false
  end.

(** Everything in the state but the symbol caches and the log. *)
Definition globals (s : shim) :=
  (fr_callback s, fr_kbfunc s, fr_mousefunc s, fr_motionfunc s,
   geometry s, fs s).

(** [m] relates every state it is started in to the state it ends in,
    returning or crashing, by [R]. *)
Definition frame {A} (R : shim -> shim -> Prop) (m : M A) : Prop :=
  forall s, R s (final (m s)).

(** The relations used below. *)
Definition same_geometry (s s' : shim) : Prop := geometry s' = geometry s.

(** A populated slot keeps its pointer and is not looked up again. *)
Definition slot_kept (sl : slot) (s s' : shim) : Prop :=
  statics s sl <> NULL ->
  statics s' sl = statics s sl /\
  lookups (symbol sl) (log s') = lookups (symbol sl) (log s).

(** Every slot has been populated by exactly as many lookups as it takes:
    none while it is null, one once it holds a pointer. *)
Definition populated_once (s : shim) : Prop :=
  forall sl, resolutions (symbol sl) (log s) =
             if is_null (statics s sl) then 0%nat else 1%nat.

Definition keeps_populated_once (s s' : shim) : Prop :=
  populated_once s -> populated_once s'.

(** A world in which every symbol resolves, every call returns 0 and the
    device reports 64 frames of delay. *)
Definition quiet_world : world :=
  mkWorld (fun _ _ => Host 1) (fun _ _ _ => 0) (fun _ _ => (0, 64)).

(** A state in which the host has registered all of its callbacks. *)
Definition registered : shim :=
  mkShim (fun _ => NULL) (Host 2) 0 0 0 0 0 (Host 3) (Host 4) (Host 5) [].

(** ** What is handed to the outside, and the fullscreen flag *)

(** [m] only appends to the log, and every event it appends passes [P]. *)
Definition emits {A} (P : event -> bool) (m : M A) : Prop :=
  forall s, exists l, log (final (m s)) = log s ++ l /\ forallb P l = true.



Definition no_dlsym (e : event) : bool :=
  match e with
  | Dlsym _ _ => false
  | _ => true
  end.

(** [fs] as a flag. *)
Definition is_flag (z : Z) : Prop := z = 0 \/ z = 1.

Definition flag_kept (s s' : shim) : Prop := is_flag (fs s) -> is_flag (fs s').

(** Nothing but the log differs. *)
Definition only_logged (s s' : shim) : Prop :=
  (forall sl, statics s' sl = statics s sl) /\ globals s' = globals s.

(** The cache slot an entry calls through on every path, if there is one:
    the interposed functions that forward to their real namesake, and the
    resize handler, which ends with the real [glViewport]. *)
Definition forwards_through (o : op) : option slot :=
  match o with
  | Op_snd_pcm_open _ _ _ _ => Some S_snd_pcm_open
  | Op_snd_async_add_pcm_handler _ _ _ _ => Some S_snd_async_add_pcm_handler
  | Op_init_manglers _ _ => Some S_glvp
  | Op_glutReshapeFunc _ => Some S_glutReshapeFunc
  | Op_glutKeyboardFunc _ => Some S_glutKeyboardFunc
  | Op_glutMouseFunc _ => Some S_glutMouseFunc
  | Op_glutPassiveMotionFunc _ => Some S_glutPassiveMotionFunc
  | _ => None
  end.

(** The globals, cell by cell, and the one entry that assigns each. *)
Inductive cell : Type :=
| G_fr_callback
| G_fr_kbfunc
| G_fr_mousefunc
| G_fr_motionfunc
| G_geometry
| G_fs.

Inductive cell_value : Type :=
| CFun (f : funptr)
| CRect (g : Z * Z * Z * Z)
| CFlag (z : Z).

Definition read (c : cell) (s : shim) : cell_value :=
  match c with
  | G_fr_callback => CFun (fr_callback s)
  | G_fr_kbfunc => CFun (fr_kbfunc s)
  | G_fr_mousefunc => CFun (fr_mousefunc s)
  | G_fr_motionfunc => CFun (fr_motionfunc s)
  | G_geometry => CRect (geometry s)
  | G_fs => CFlag (fs s)
  end.

Definition cell_eqb (a b : cell) : bool :=
  match a, b with
  | G_fr_callback, G_fr_callback
  | G_fr_kbfunc, G_fr_kbfunc
  | G_fr_mousefunc, G_fr_mousefunc
  | G_fr_motionfunc, G_fr_motionfunc
  | G_geometry, G_geometry
  | G_fs, G_fs => true
  | _, _ => false
  end.

Definition writes (o : op) (c : cell) : bool :=
  match o with
  | Op_snd_async_add_pcm_handler _ _ _ _ => cell_eqb c G_fr_callback
  | Op_glutKeyboardFunc _ => cell_eqb c G_fr_kbfunc
  | Op_glutMouseFunc _ => cell_eqb c G_fr_mousefunc
  | Op_glutPassiveMotionFunc _ => cell_eqb c G_fr_motionfunc
  | Op_init_manglers _ _ => cell_eqb c G_geometry
  | Op_faked_kbfunc _ _ _ => cell_eqb c G_fs
  | _ => false
  end.

Definition cell_kept (c : cell) (s s' : shim) : Prop := read c s' = read c s.

(** Where the pointers the shim calls through come from: the callbacks the
    host registers, and the results of lookups. *)
Definition registers (o : op) : list funptr :=
  match o with
  | Op_snd_async_add_pcm_handler _ _ callback _ => [callback]
  | Op_glutKeyboardFunc func => [func]
  | Op_glutMouseFunc func => [func]
  | Op_glutPassiveMotionFunc func => [func]
  | _ => []
  end.

Definition registered_by (os : list op) : list funptr := flat_map registers os.

Definition looked_up (l : list event) : list funptr :=
  flat_map (fun e => match e with Dlsym _ r => [r] | _ => [] end) l.

Definition called_through (l : list event) : list funptr :=
  flat_map (fun e => match e with Call (Ptr f) _ => [f] | _ => [] end) l.

(** Every cached pointer was looked up, every stored callback is one of
    [C], and every pointer called through so far is one or the other. *)
Definition provenance (C : list funptr) (s : shim) : Prop :=
  (forall sl, statics s sl = NULL \/ In (statics s sl) (looked_up (log s))) /\
  (forall f, In f [fr_callback s; fr_kbfunc s; fr_mousefunc s; fr_motionfunc s] ->
             f = NULL \/ In f C) /\
  (forall f, In f (called_through (log s)) ->
             In f (looked_up (log s)) \/ In f C).

(** A world in which no symbol resolves. *)
Definition deaf_world : world :=
  mkWorld (fun _ _ => NULL) (fun _ _ _ => 0) (fun _ _ => (0, 64)).

(** ** Machine arithmetic within range *)

Lemma wrap_in_range (z : Z) : CInt.in_int z -> CInt.wrap z = z.
Proof.
  unfold CInt.in_int, CInt.INT_MIN, CInt.INT_MAX, CInt.wrap. intros H.
  rewrite Z.mod_small; lia.
Qed.

Lemma mul_in_range (a b : Z) : CInt.in_int (a * b) -> CInt.mul a b = a * b.
Proof. apply wrap_in_range. Qed.

Lemma sub_in_range (a b : Z) : CInt.in_int (a - b) -> CInt.sub a b = a - b.
Proof. apply wrap_in_range. Qed.

Lemma div_nonneg (a b : Z) :
  0 <= a <= CInt.INT_MAX -> 0 < b -> CInt.div a b = a / b.
Proof.
  intros Ha Hb. unfold CInt.div.
  rewrite Z.quot_div_nonneg by lia.
  apply wrap_in_range. unfold CInt.in_int, CInt.INT_MIN, CInt.INT_MAX in *.
  split.
  - pose proof (Z.div_pos a b). lia.
  - pose proof (Z.div_le_upper_bound a b 2147483647). nia.
Qed.

(** ** Lazy symbol resolution *)

Lemma resolve_eq (W : world) (sl : slot) (s : shim) :
  resolve W sl s = Done (target W s sl) (resolved W sl s).
Proof.
  unfold resolve, target, resolved, bind, load, dlsym, store, ret.
  destruct (is_null (statics s sl)); reflexivity.
Qed.

Lemma resolved_log (W : world) (sl : slot) (s : shim) :
  log (resolved W sl s) = log s ++ resolving W s sl.
Proof.
  unfold resolved, resolving.
  destruct (is_null (statics s sl)); simpl; [reflexivity | now rewrite app_nil_r].
Qed.

Lemma resolved_globals (W : world) (sl : slot) (s : shim) :
  globals (resolved W sl s) = globals s.
Proof.
  unfold resolved. destruct (is_null (statics s sl)); reflexivity.
Qed.

Lemma new_events_app (s s' : shim) (l : list event) :
  log s' = log s ++ l -> new_events s s' = l.
Proof.
  intros H. unfold new_events. rewrite H.
  rewrite skipn_app, skipn_all, Nat.sub_diag. reflexivity.
Qed.

Lemma call_ok (W : world) (f : funptr) (args : list val) (s : shim) :
  f <> NULL ->
  call W (Ptr f) args s =
  Done (call_result W (log s) (Ptr f) args) (emit (Call (Ptr f) args) s).
Proof.
  intros H. destruct f; [congruence | reflexivity | reflexivity].
Qed.

Lemma final_then_ret {A} (m : M A) (s : shim) :
  final ((m ;; ret tt) s) = final (m s).
Proof.
  unfold bind, ret. destruct (m s); reflexivity.
Qed.

Lemma call_geometry (W : world) (c : callee) (args : list val) (s : shim) :
  geometry (final (call W c args s)) = geometry s.
Proof.
  unfold call. destruct c as [[| |]|]; reflexivity.
Qed.

(** The stored rectangle after a resize does not depend on whether the
    final call to the real [glViewport] goes through. *)
Lemma init_manglers_geometry (W : world) (w h : Z) (s : shim) :
  geometry (final (init_manglers W w h s)) =
  if w =? CInt.div (CInt.mul h 16) 9 then (w, h, 0, 0)
  else if w <? CInt.div (CInt.mul h 16) 9 then
    (w, CInt.div (CInt.mul w 9) 16, 0,
     CInt.div (CInt.sub h (CInt.div (CInt.mul w 9) 16)) 2)
  else
    (CInt.div (CInt.mul h 16) 9, h,
     CInt.div (CInt.sub w (CInt.div (CInt.mul h 16) 9)) 2, 0).
Proof.
  unfold init_manglers, bind at 1. rewrite resolve_eq.
  destruct (w =? CInt.div (CInt.mul h 16) 9);
    [| destruct (w <? CInt.div (CInt.mul h 16) 9)];
    cbn [bind store load ret];
    rewrite final_then_ret, call_geometry; reflexivity.
Qed.

(** Each registration function stores the host's callback before it calls
    out, so the callback is in place whether or not that call goes through;
    a later registration overwrites it. *)
Lemma registration_stores (W : world) (cb : funptr) (s : shim) :
  (forall handler pcm private_data,
      fr_callback (final (snd_async_add_pcm_handler W handler pcm cb
                                                     private_data s)) = cb) /\
  fr_kbfunc (final (glutKeyboardFunc W cb s)) = cb /\
  fr_mousefunc (final (glutMouseFunc W cb s)) = cb /\
  fr_motionfunc (final (glutPassiveMotionFunc W cb s)) = cb.
Proof.
  repeat split; intros;
    unfold snd_async_add_pcm_handler, glutKeyboardFunc, glutMouseFunc,
      glutPassiveMotionFunc, bind, store, ret, call;
    rewrite resolve_eq;
    match goal with
    | |- context [target W s ?sl] => destruct (target W s sl)
    end; reflexivity.
Qed.

(** ** Framing: what a whole function leaves related *)

Section Framing.

Variable W : world.
Variable FIXDELAY : Z.
Variable LOGDELAY : bool.
Variable R : shim -> shim -> Prop.

Hypothesis R_refl : forall s, R s s.
Hypothesis R_trans : forall s1 s2 s3, R s1 s2 -> R s2 s3 -> R s1 s3.
Hypothesis R_call : forall s c args, R s (emit (Call c args) s).
Hypothesis R_query : forall s pcm a d, R s (emit (AvailDelay pcm a d) s).
Hypothesis R_printf : forall s d, R s (emit (Printf d) s).
Hypothesis R_resolved : forall sl s, R s (resolved W sl s).
Hypothesis R_fr_callback : forall p s, R s (set_fr_callback p s).
Hypothesis R_fr_kbfunc : forall p s, R s (set_fr_kbfunc p s).
Hypothesis R_fr_mousefunc : forall p s, R s (set_fr_mousefunc p s).
Hypothesis R_fr_motionfunc : forall p s, R s (set_fr_motionfunc p s).
Hypothesis R_fs : forall z s, R s (set_fs z s).

Lemma frame_ret {A} (a : A) : frame R (ret a).
Proof. intros s. apply R_refl. Qed.

Lemma frame_load {A} (f : shim -> A) : frame R (load f).
Proof. intros s. apply R_refl. Qed.

Lemma frame_store (f : shim -> shim) :
  (forall s, R s (f s)) -> frame R (store f).
Proof. intros H s. apply H. Qed.

Lemma frame_bind {A B} (m : M A) (k : A -> M B) :
  frame R m -> (forall a, frame R (k a)) -> frame R (bind m k).
Proof.
  intros Hm Hk s. unfold bind. specialize (Hm s).
  destruct (m s) as [a s1 | s1]; cbn [final] in *.
  - eapply R_trans; [exact Hm | apply Hk].
  - exact Hm.
Qed.

Lemma frame_if {A} (b : bool) (m1 m2 : M A) :
  frame R m1 -> frame R m2 -> frame R (if b then m1 else m2).
Proof. destruct b; auto. Qed.

Lemma frame_call (c : callee) (args : list val) : frame R (call W c args).
Proof.
  intros s. unfold call. destruct c as [[| |]|]; cbn [final]; auto.
Qed.

Lemma frame_query (pcm : Z) : frame R (snd_pcm_avail_delay W pcm).
Proof. intros s. apply R_query. Qed.

Lemma frame_resolve (sl : slot) : frame R (resolve W sl).
Proof. intros s. rewrite resolve_eq. apply R_resolved. Qed.

Ltac frame_steps :=
  repeat first
    [ apply frame_ret | apply frame_load | apply frame_call
    | apply frame_query | apply frame_resolve
    | apply frame_store; solve [auto]
    | apply frame_bind; [| intros ?]
    | apply frame_if ].

(** Everything but the resize handler. *)
Lemma frame_exec_other (o : op) :
  is_resize o = false -> frame R (exec W FIXDELAY LOGDELAY o).
Proof.
  destruct o; cbn [is_resize exec]; intros E; try discriminate;
    unfold snd_pcm_open, fake_callback, snd_async_add_pcm_handler,
      glutReshapeFunc, glViewport, glutReshapeWindow, faked_kbfunc,
      glutKeyboardFunc, faked_mousefunc, faked_motionfunc, glutMouseFunc,
      glutPassiveMotionFunc;
    frame_steps.
Qed.

Lemma frame_run_other (os : list op) :
  forallb (fun o => negb (is_resize o)) os = true ->
  frame R (run W FIXDELAY LOGDELAY os).
Proof.
  induction os as [| o rest IH]; cbn [run forallb]; intros H.
  - apply frame_ret.
  - apply andb_true_iff in H. destruct H as [Ho Hrest].
    apply frame_bind.
    + apply frame_exec_other. now destruct (is_resize o).
    + intros _. now apply IH.
Qed.

Hypothesis R_act_w : forall z s, R s (set_act_w z s).
Hypothesis R_act_h : forall z s, R s (set_act_h z s).
Hypothesis R_act_xoff : forall z s, R s (set_act_xoff z s).
Hypothesis R_act_yoff : forall z s, R s (set_act_yoff z s).

Lemma frame_exec (o : op) : frame R (exec W FIXDELAY LOGDELAY o).
Proof.
  destruct (is_resize o) eqn:E; [| now apply frame_exec_other].
  destruct o; try discriminate. cbn [exec]. unfold init_manglers.
  frame_steps.
Qed.

Lemma frame_run (os : list op) : frame R (run W FIXDELAY LOGDELAY os).
Proof.
  induction os as [| o rest IH]; cbn [run].
  - apply frame_ret.
  - apply frame_bind; [apply frame_exec | intros _; exact IH].
Qed.

End Framing.

(** ** The resize handler *)

(** Under the bound that keeps [h * 16] inside [int], the three branches
    compute with exact integer arithmetic. *)
Lemma init_manglers_exact (W : world) (w h : Z) (s : shim) :
  0 < w <= CInt.INT_MAX -> 0 < h -> 16 * h <= CInt.INT_MAX ->
  geometry (final (init_manglers W w h s)) =
  if w =? h * 16 / 9 then (w, h, 0, 0)
  else if w <? h * 16 / 9 then (w, w * 9 / 16, 0, (h - w * 9 / 16) / 2)
  else (h * 16 / 9, h, (w - h * 16 / 9) / 2, 0).
Proof.
  intros Hw Hh Hb. rewrite init_manglers_geometry.
  unfold CInt.INT_MAX in *.
  assert (Em : CInt.mul h 16 = h * 16)
    by (apply mul_in_range; unfold CInt.in_int, CInt.INT_MIN, CInt.INT_MAX; lia).
  assert (Ed : CInt.div (CInt.mul h 16) 9 = h * 16 / 9)
    by (rewrite Em; apply div_nonneg; unfold CInt.INT_MAX; lia).
  rewrite Ed.
  destruct (Z.eqb_spec w (h * 16 / 9)) as [E | NE]; [reflexivity |].
  destruct (Z.ltb_spec w (h * 16 / 9)) as [L | G].
  - assert (Q : 9 * (h * 16 / 9) <= h * 16)
      by (apply Z.mul_div_le; lia).
    assert (Em' : CInt.mul w 9 = w * 9)
      by (apply mul_in_range; unfold CInt.in_int, CInt.INT_MIN, CInt.INT_MAX; lia).
    assert (Ed' : CInt.div (CInt.mul w 9) 16 = w * 9 / 16)
      by (rewrite Em'; apply div_nonneg; unfold CInt.INT_MAX; lia).
    rewrite Ed'.
    assert (B : 0 <= w * 9 / 16 <= h).
    { split; [apply Z.div_pos; lia |].
      apply Z.div_le_upper_bound; lia. }
    rewrite sub_in_range
      by (unfold CInt.in_int, CInt.INT_MIN, CInt.INT_MAX; lia).
    rewrite div_nonneg by (unfold CInt.INT_MAX; lia).
    reflexivity.
  - assert (B : 0 <= h * 16 / 9) by (apply Z.div_pos; lia).
    rewrite sub_in_range
      by (unfold CInt.in_int, CInt.INT_MIN, CInt.INT_MAX; lia).
    rewrite div_nonneg by (unfold CInt.INT_MAX; lia).
    reflexivity.
Qed.

(** When the real [glViewport] resolves, the handler returns, having set
    the stored rectangle as the viewport with one call. *)
Lemma init_manglers_returns (W : world) (w h : Z) (s : shim) :
  target W s S_glvp <> NULL ->
  returned (init_manglers W w h s) = Some tt /\
  log (final (init_manglers W w h s)) =
  log s ++ resolving W s S_glvp ++
  [Call (Ptr (target W s S_glvp))
        [VInt (act_xoff (final (init_manglers W w h s)));
         VInt (act_yoff (final (init_manglers W w h s)));
         VInt (act_w (final (init_manglers W w h s)));
         VInt (act_h (final (init_manglers W w h s)))]].
Proof.
  intros T. pose proof (resolved_log W S_glvp s) as L.
  unfold init_manglers, bind, store, load, ret. rewrite resolve_eq.
  destruct (w =? CInt.div (CInt.mul h 16) 9);
    [| destruct (w <? CInt.div (CInt.mul h 16) 9)];
    rewrite call_ok by exact T; cbn [returned final];
    (split; [reflexivity |]);
    cbn [log emit set_act_w set_act_h set_act_xoff set_act_yoff
         act_w act_h act_xoff act_yoff];
    rewrite L, <- app_assoc; reflexivity.
Qed.

(** C1 (as amended).  For every window size [(w, h)] with [w] and [h]
    positive and [h * 16] representable as an [int], the rectangle the
    resize handler stores has the ratio 16:9 up to the truncation of one
    integer division, fits inside the window
    ([act_xoff + act_w <= w], [act_yoff + act_h <= h]) and is centred on
    both axes ([act_xoff = (w - act_w) / 2], [act_yoff = (h - act_h) / 2]). *)
Theorem init_manglers_aspect_locked (W : world) (w h : Z) (s : shim) :
  0 < w <= CInt.INT_MAX -> 0 < h -> 16 * h <= CInt.INT_MAX ->
  aspect_locked w h (final (init_manglers W w h s)).
Proof.
  intros Hw Hh Hb.
  pose proof (init_manglers_exact W w h s Hw Hh Hb) as G.
  unfold CInt.INT_MAX in *. unfold aspect_locked.
  destruct (final (init_manglers W w h s)) as [st cb aw ah xo yo f kb mo mt lg].
  unfold geometry in G. cbn [act_w act_h act_xoff act_yoff] in *.
  destruct (Z.eqb_spec w (h * 16 / 9)) as [E | NE];
    [| destruct (Z.ltb_spec w (h * 16 / 9)) as [L | L]];
    injection G as -> -> -> ->.
  - rewrite Z.sub_diag, Z.sub_diag. change (0 / 2) with 0.
    repeat split; Z.div_mod_to_equations; lia.
  - rewrite Z.sub_diag. change (0 / 2) with 0.
    repeat split; Z.div_mod_to_equations; lia.
  - rewrite Z.sub_diag. change (0 / 2) with 0.
    repeat split; Z.div_mod_to_equations; lia.
Qed.

Lemma init_manglers_aspect_locked_witness :
  (0 < 1000 <= CInt.INT_MAX /\ 0 < 1000 /\ 16 * 1000 <= CInt.INT_MAX) /\
  aspect_locked 1000 1000 (final (init_manglers quiet_world 1000 1000 shim_init)).
Proof.
  assert (H : 0 < 1000 <= CInt.INT_MAX /\ 0 < 1000 /\ 16 * 1000 <= CInt.INT_MAX)
    by (unfold CInt.INT_MAX; lia).
  split; [exact H |].
  destruct H as [H1 [H2 H3]].
  exact (init_manglers_aspect_locked quiet_world 1000 1000 shim_init H1 H2 H3).
Defined.

(** Where [h * 16] leaves [int], the stored width is negative and the
    rectangle is nowhere near 16:9. *)
Lemma init_manglers_overflow_not_locked :
  (0 < 1 <= CInt.INT_MAX /\ 0 < 134217728 <= CInt.INT_MAX) /\
  geometry (final (init_manglers quiet_world 1 134217728 shim_init)) =
  (-238609294, 134217728, 119304647, 0) /\
  ~ aspect_locked 1 134217728
      (final (init_manglers quiet_world 1 134217728 shim_init)).
Proof.
  split; [unfold CInt.INT_MAX; lia |].
  split; [reflexivity |].
  intros [_ [H _]]. vm_compute in H. discriminate H.
Qed.

(** C2.  The stored rectangle [(act_w, act_h, act_xoff, act_yoff)] on the
    three sample windows: 1920x1080 gives [(1920, 1080, 0, 0)], 1000x1000
    gives [(1000, 562, 0, 219)], 2000x900 gives [(1600, 900, 200, 0)]. *)
Theorem init_manglers_sample_windows (W : world) (s : shim) :
  geometry (final (init_manglers W 1920 1080 s)) = (1920, 1080, 0, 0) /\
  geometry (final (init_manglers W 1000 1000 s)) = (1000, 562, 0, 219) /\
  geometry (final (init_manglers W 2000 900 s)) = (1600, 900, 200, 0).
Proof.
  rewrite !init_manglers_geometry. repeat split; reflexivity.
Qed.

(** C8.  The exported [glViewport] and [glutReshapeWindow] return at once
    for all arguments: the state, symbol caches and log of calls made
    included, is the one they were entered with. *)
Theorem viewport_and_reshape_are_nops (x y width height : Z) (s : shim) :
  glViewport x y width height s = Done tt s /\
  glutReshapeWindow width height s = Done tt s /\
  new_events s (final (glViewport x y width height s)) = [] /\
  new_events s (final (glutReshapeWindow width height s)) = [].
Proof.
  repeat split; apply new_events_app; cbn [glViewport glutReshapeWindow ret final];
    now rewrite app_nil_r.
Qed.

(** Only the resize handler writes the stored rectangle. *)
Lemma geometry_untouched (W : world) (FIXDELAY : Z) (LOGDELAY : bool)
      (os : list op) (s : shim) :
  forallb (fun o => negb (is_resize o)) os = true ->
  geometry (final (run W FIXDELAY LOGDELAY os s)) = geometry s.
Proof.
  intros H.
  apply (frame_run_other W FIXDELAY LOGDELAY same_geometry);
    unfold same_geometry; try (intros; reflexivity); try exact H.
  - intros s1 s2 s3 H1 H2. now rewrite H2.
  - intros sl s0. unfold resolved.
    destruct (is_null (statics s0 sl)); reflexivity.
Qed.

(** C10 (as amended).  After every call of the resize handler with [w] and
    [h] positive and [h * 16] representable as an [int], one of the stored
    offsets is zero and none of the four stored values is negative; at
    process start, and as long as no resize event has arrived, both
    offsets are zero. *)
Theorem init_manglers_letterboxed
        (W : world) (FIXDELAY : Z) (LOGDELAY : bool)
        (w h : Z) (s : shim) (os : list op) :
  0 < w <= CInt.INT_MAX -> 0 < h -> 16 * h <= CInt.INT_MAX ->
  forallb (fun o => negb (is_resize o)) os = true ->
  letterboxed (final (init_manglers W w h s)) /\
  (act_xoff shim_init = 0 /\ act_yoff shim_init = 0) /\
  (act_xoff (final (run W FIXDELAY LOGDELAY os shim_init)) = 0 /\
   act_yoff (final (run W FIXDELAY LOGDELAY os shim_init)) = 0).
Proof.
  intros Hw Hh Hb Hos. split; [| split].
  - pose proof (init_manglers_exact W w h s Hw Hh Hb) as G.
    unfold CInt.INT_MAX in *. unfold letterboxed.
    destruct (final (init_manglers W w h s)) as [st cb aw ah xo yo f kb mo mt lg].
    unfold geometry in G. cbn [act_w act_h act_xoff act_yoff] in *.
    destruct (Z.eqb_spec w (h * 16 / 9)) as [E | NE];
      [| destruct (Z.ltb_spec w (h * 16 / 9)) as [L | L]];
      injection G as -> -> -> ->;
      repeat split; try (now left); try (now right);
      Z.div_mod_to_equations; lia.
  - split; reflexivity.
  - pose proof (geometry_untouched W FIXDELAY LOGDELAY os shim_init Hos) as G.
    unfold geometry in G. cbn [shim_init act_w act_h act_xoff act_yoff] in G.
    injection G as _ _ Gx Gy. split; assumption.
Qed.

Lemma init_manglers_letterboxed_witness :
  letterboxed (final (init_manglers quiet_world 2000 900 shim_init)) /\
  (act_xoff shim_init = 0 /\ act_yoff shim_init = 0) /\
  (act_xoff (final (run quiet_world 1024 false
                        [Op_glutReshapeFunc (Host 7); Op_faked_kbfunc "f" 0 0]
                        shim_init)) = 0 /\
   act_yoff (final (run quiet_world 1024 false
                        [Op_glutReshapeFunc (Host 7); Op_faked_kbfunc "f" 0 0]
                        shim_init)) = 0).
Proof.
  apply (init_manglers_letterboxed quiet_world 1024 false 2000 900 shim_init
           [Op_glutReshapeFunc (Host 7); Op_faked_kbfunc "f" 0 0]).
  - unfold CInt.INT_MAX; lia.
  - lia.
  - unfold CInt.INT_MAX; lia.
  - reflexivity.
Defined.

(** Where [h * 16] leaves [int], the stored width is negative. *)
Lemma init_manglers_overflow_negative_width :
  (0 < 1 <= CInt.INT_MAX /\ 0 < 134217728 <= CInt.INT_MAX) /\
  act_w (final (init_manglers quiet_world 1 134217728 shim_init)) = -238609294 /\
  ~ letterboxed (final (init_manglers quiet_world 1 134217728 shim_init)).
Proof.
  split; [unfold CInt.INT_MAX; lia |].
  split; [reflexivity |].
  intros [_ [H _]]. vm_compute in H. apply H. reflexivity.
Qed.

(** ** The audio-device redirector *)

(** C5.  Whatever [name] the caller gives, [snd_pcm_open] makes exactly one
    call, to the real [snd_pcm_open], with ["default"] in place of [name]
    and [pcm], [stream] and [mode] as given, and returns what that call
    returns. *)
Theorem snd_pcm_open_redirects
        (W : world) (pcm : Z) (name : string) (stream mode : Z) (s : shim) :
  target W s S_snd_pcm_open <> NULL ->
  let real := target W s S_snd_pcm_open in
  let before := log s ++ resolving W s S_snd_pcm_open in
  let args := [VPtr pcm; VStr "default"; VInt stream; VInt mode] in
  let o := snd_pcm_open W pcm name stream mode s in
  log (final o) = before ++ [Call (Ptr real) args] /\
  calls (new_events s (final o)) = [Call (Ptr real) args] /\
  returned o = Some (call_result W before (Ptr real) args).
Proof.
  intros T real before args o.
  pose proof (resolved_log W S_snd_pcm_open s) as L.
  assert (E : o = Done (call_result W before (Ptr real) args)
                       (emit (Call (Ptr real) args)
                             (resolved W S_snd_pcm_open s))).
  { subst o. unfold snd_pcm_open, bind. rewrite resolve_eq.
    rewrite call_ok by exact T. subst before. rewrite L. reflexivity. }
  rewrite E. cbn [final returned log emit].
  assert (Lg : log (resolved W S_snd_pcm_open s) ++ [Call (Ptr real) args] =
               before ++ [Call (Ptr real) args])
    by (subst before; now rewrite L).
  split; [exact Lg | split; [| reflexivity]].
  rewrite (new_events_app s _ (resolving W s S_snd_pcm_open ++ [Call (Ptr real) args])).
  - unfold resolving. destruct (is_null (statics s S_snd_pcm_open)); reflexivity.
  - cbn [log emit]. rewrite L. now rewrite app_assoc.
Qed.

Lemma snd_pcm_open_redirects_witness :
  log (final (snd_pcm_open quiet_world 16 "plughw:0,0" 0 0 shim_init)) =
  [Dlsym "snd_pcm_open" (Host 1);
   Call (Ptr (Host 1)) [VPtr 16; VStr "default"; VInt 0; VInt 0]] /\
  calls (new_events shim_init
           (final (snd_pcm_open quiet_world 16 "plughw:0,0" 0 0 shim_init))) =
  [Call (Ptr (Host 1)) [VPtr 16; VStr "default"; VInt 0; VInt 0]] /\
  returned (snd_pcm_open quiet_world 16 "plughw:0,0" 0 0 shim_init) = Some 0.
Proof.
  apply (snd_pcm_open_redirects quiet_world 16 "plughw:0,0" 0 0 shim_init).
  discriminate.
Defined.

(** ** The delay-triggered audio callback *)

(** Everything one tick of [fake_callback] does, in order. *)
Lemma fake_callback_events
      (W : world) (FIXDELAY : Z) (LOGDELAY : bool) (ahandler : Z) (s : shim) :
  fr_callback s <> NULL ->
  let get_pcm := Call (Lib "snd_async_handler_get_pcm") [VPtr ahandler] in
  let pcm := call_result W (log s) (Lib "snd_async_handler_get_pcm")
                         [VPtr ahandler] in
  let ad := pcm_avail_delay W (log s ++ [get_pcm]) pcm in
  let o := fake_callback W FIXDELAY LOGDELAY ahandler s in
  returned o = Some tt /\
  log (final o) =
  log s ++ [get_pcm; AvailDelay pcm (fst ad) (snd ad)]
        ++ (if LOGDELAY then [Printf (snd ad)] else [])
        ++ (if snd ad <? FIXDELAY
            then [Call (Ptr (fr_callback s)) [VPtr ahandler]] else []).
Proof.
  intros Hcb get_pcm pcm ad o. subst o.
  unfold fake_callback, bind, snd_pcm_avail_delay, store, load, ret.
  cbn [call]. fold get_pcm pcm. cbn [log emit]. fold ad.
  destruct LOGDELAY; destruct (snd ad <? FIXDELAY);
    cbn [fr_callback emit log];
    (destruct (fr_callback s) eqn:Ecb; [congruence | |]);
    cbn [returned final log emit]; (split; [reflexivity |]);
    rewrite <- ?app_assoc; reflexivity.
Qed.

(** C3.  With the host's callback registered, one tick of [fake_callback]
    makes the available-count/delay query exactly once, whatever it
    reports; when the reported delay is below [FIXDELAY] the stored callback
    is called exactly once, with the tick's own handler argument, and when
    it is [FIXDELAY] or more no function pointer is called at all. *)
Theorem fake_callback_threshold
        (W : world) (FIXDELAY : Z) (LOGDELAY : bool) (ahandler : Z) (s : shim) :
  fr_callback s <> NULL ->
  let get_pcm := Call (Lib "snd_async_handler_get_pcm") [VPtr ahandler] in
  let pcm := call_result W (log s) (Lib "snd_async_handler_get_pcm")
                         [VPtr ahandler] in
  let delay := snd (pcm_avail_delay W (log s ++ [get_pcm]) pcm) in
  let o := fake_callback W FIXDELAY LOGDELAY ahandler s in
  let evs := new_events s (final o) in
  returned o = Some tt /\
  queries evs = 1%nat /\
  (delay < FIXDELAY ->
   calls_to (Ptr (fr_callback s)) evs = [[VPtr ahandler]] /\
   calls evs = [get_pcm; Call (Ptr (fr_callback s)) [VPtr ahandler]]) /\
  (FIXDELAY <= delay ->
   calls_to (Ptr (fr_callback s)) evs = [] /\ calls evs = [get_pcm]).
Proof.
  intros Hcb get_pcm pcm delay o evs.
  destruct (fake_callback_events W FIXDELAY LOGDELAY ahandler s Hcb) as [Hr Hl].
  fold get_pcm pcm in Hl. fold delay in Hl. fold o in Hr, Hl.
  apply new_events_app in Hl. fold evs in Hl.
  split; [exact Hr |]. rewrite Hl.
  assert (Hself : forall a,
             calls_to (Ptr (fr_callback s)) [Call (Ptr (fr_callback s)) a] = [a]).
  { intros a. cbn [calls_to flat_map].
    destruct (callee_eq_dec (Ptr (fr_callback s)) (Ptr (fr_callback s)));
      [reflexivity | congruence]. }
  split; [| split]; intros; unfold queries, calls, calls_to in *;
    destruct LOGDELAY; destruct (Z.ltb_spec delay FIXDELAY); try lia;
    cbn [app filter is_query is_call flat_map List.length] in *;
    try reflexivity;
    (split; [| reflexivity]);
    try reflexivity;
    destruct (callee_eq_dec (Ptr (fr_callback s)) (Ptr (fr_callback s)));
    try congruence; reflexivity.
Qed.

Lemma fake_callback_threshold_witness :
  fr_callback registered <> NULL /\
  queries (new_events registered
             (final (fake_callback quiet_world 1024 false 7 registered))) = 1%nat /\
  calls_to (Ptr (Host 2))
           (new_events registered
              (final (fake_callback quiet_world 1024 false 7 registered))) =
  [[VPtr 7]] /\
  calls_to (Ptr (Host 2))
           (new_events registered
              (final (fake_callback quiet_world 64 false 7 registered))) = [].
Proof.
  assert (H : fr_callback registered <> NULL) by discriminate.
  split; [exact H |].
  destruct (fake_callback_threshold quiet_world 1024 false 7 registered H)
    as [_ [Hq [Hlt _]]].
  destruct (fake_callback_threshold quiet_world 64 false 7 registered H)
    as [_ [_ [_ Hge]]].
  split; [exact Hq | split].
  - apply Hlt. reflexivity.
  - apply Hge. discriminate.
Defined.

(** ** The keyboard handler *)

Lemma resolved_fs (W : world) (sl : slot) (s : shim) :
  fs (resolved W sl s) = fs s.
Proof. unfold resolved. destruct (is_null (statics s sl)); reflexivity. Qed.

Lemma resolved_fr_kbfunc (W : world) (sl : slot) (s : shim) :
  fr_kbfunc (resolved W sl s) = fr_kbfunc s.
Proof. unfold resolved. destruct (is_null (statics s sl)); reflexivity. Qed.

(** The four ways through the [switch]. *)
Lemma faked_kbfunc_q (W : world) (x y : Z) (s : shim) :
  faked_kbfunc W "q" x y s =
  Done tt (emit (Call (Lib "glutLeaveMainLoop") []) (resolved W S_glrw s)).
Proof.
  unfold faked_kbfunc, bind. rewrite resolve_eq. reflexivity.
Qed.

Lemma faked_kbfunc_f_enter (W : world) (x y : Z) (s : shim) :
  fs s = 0 ->
  faked_kbfunc W "f" x y s =
  Done tt (set_fs 1 (emit (Call (Lib "glutFullScreen") [])
                          (resolved W S_glrw s))).
Proof.
  intros F. unfold faked_kbfunc, bind. rewrite resolve_eq.
  cbn [Ascii.eqb Bool.eqb andb]. unfold load.
  rewrite resolved_fs, F. reflexivity.
Qed.

Lemma faked_kbfunc_f_leave (W : world) (x y : Z) (s : shim) :
  fs s <> 0 -> target W s S_glrw <> NULL ->
  faked_kbfunc W "f" x y s =
  Done tt (set_fs 0 (emit (Call (Ptr (target W s S_glrw)) [VInt 1280; VInt 720])
                          (resolved W S_glrw s))).
Proof.
  intros F T. unfold faked_kbfunc, bind. rewrite resolve_eq.
  cbn [Ascii.eqb Bool.eqb andb]. unfold load.
  rewrite resolved_fs.
  destruct (Z.eqb_spec (fs s) 0) as [E | _]; [contradiction |].
  cbn [negb]. rewrite call_ok by exact T. reflexivity.
Qed.

Lemma faked_kbfunc_forward (W : world) (key : ascii) (x y : Z) (s : shim) :
  key <> "q"%char -> key <> "f"%char -> fr_kbfunc s <> NULL ->
  faked_kbfunc W key x y s =
  Done tt (emit (Call (Ptr (fr_kbfunc s))
                      [VInt (key_code key); VInt x; VInt y])
                (resolved W S_glrw s)).
Proof.
  intros Q F K. apply Ascii.eqb_neq in Q, F.
  unfold faked_kbfunc, bind. rewrite resolve_eq, Q, F. unfold load.
  rewrite resolved_fr_kbfunc, call_ok by exact K. reflexivity.
Qed.

(** The calls made by a function that resolves [sl] and then emits [e]. *)
Lemma calls_after_resolve (W : world) (sl : slot) (s s' : shim) (e : event) :
  log s' = log (resolved W sl s) ++ [e] -> is_call e = true ->
  calls (new_events s s') = [e].
Proof.
  intros Hl He.
  rewrite (new_events_app s s' (resolving W s sl ++ [e]))
    by (rewrite Hl, resolved_log; now rewrite app_assoc).
  unfold calls, resolving. rewrite filter_app.
  destruct (is_null (statics s sl)); cbn [filter is_call app]; now rewrite He.
Qed.

(** C4.  With the host's keyboard callback registered, the calls
    [faked_kbfunc] makes on a key event are: for ['q'], one call of
    [glutLeaveMainLoop] and nothing else; for ['f'] with the fullscreen flag
    clear, one call of [glutFullScreen], setting the flag; for ['f'] with
    the flag set, one call of the real [glutReshapeWindow] with
    [(1280, 720)], clearing the flag; for any other key, one call of the
    stored callback with [(key, x, y)] as received.  The flag changes on
    ['f'] only. *)
Theorem faked_kbfunc_keys
        (W : world) (key : ascii) (x y : Z) (s : shim) :
  fr_kbfunc s <> NULL ->
  let o := faked_kbfunc W key x y s in
  let made := calls (new_events s (final o)) in
  (key = "q"%char ->
   returned o = Some tt /\
   made = [Call (Lib "glutLeaveMainLoop") []] /\
   fs (final o) = fs s) /\
  (key = "f"%char -> fs s = 0 ->
   returned o = Some tt /\
   made = [Call (Lib "glutFullScreen") []] /\
   fs (final o) = 1) /\
  (key = "f"%char -> fs s <> 0 -> target W s S_glrw <> NULL ->
   returned o = Some tt /\
   made = [Call (Ptr (target W s S_glrw)) [VInt 1280; VInt 720]] /\
   fs (final o) = 0) /\
  (key <> "q"%char -> key <> "f"%char ->
   returned o = Some tt /\
   made = [Call (Ptr (fr_kbfunc s)) [VInt (key_code key); VInt x; VInt y]] /\
   fs (final o) = fs s).
Proof.
  intros Hkb o made. subst made o.
  split; [| split; [| split]].
  - intros ->. rewrite faked_kbfunc_q. cbn [returned final].
    split; [reflexivity | split].
    + now apply (calls_after_resolve W S_glrw).
    + cbn [fs emit]. apply resolved_fs.
  - intros -> F. rewrite (faked_kbfunc_f_enter W x y s F). cbn [returned final].
    split; [reflexivity | split].
    + now apply (calls_after_resolve W S_glrw).
    + reflexivity.
  - intros -> F T. rewrite (faked_kbfunc_f_leave W x y s F T).
    cbn [returned final].
    split; [reflexivity | split].
    + now apply (calls_after_resolve W S_glrw).
    + reflexivity.
  - intros Q F. rewrite (faked_kbfunc_forward W key x y s Q F Hkb).
    cbn [returned final].
    split; [reflexivity | split].
    + now apply (calls_after_resolve W S_glrw).
    + cbn [fs emit]. apply resolved_fs.
Qed.

Lemma faked_kbfunc_keys_witness :
  fr_kbfunc registered <> NULL /\
  calls (new_events registered
           (final (faked_kbfunc quiet_world "q" 10 20 registered))) =
  [Call (Lib "glutLeaveMainLoop") []] /\
  calls (new_events registered
           (final (faked_kbfunc quiet_world "f" 10 20 registered))) =
  [Call (Lib "glutFullScreen") []] /\
  calls (new_events registered
           (final (faked_kbfunc quiet_world "a" 10 20 registered))) =
  [Call (Ptr (Host 3)) [VInt 97; VInt 10; VInt 20]].
Proof.
  assert (H : fr_kbfunc registered <> NULL) by discriminate.
  split; [exact H |].
  destruct (faked_kbfunc_keys quiet_world "q" 10 20 registered H)
    as [Hq _].
  destruct (faked_kbfunc_keys quiet_world "f" 10 20 registered H)
    as [_ [Hf _]].
  destruct (faked_kbfunc_keys quiet_world "a" 10 20 registered H)
    as [_ [_ [_ Ha]]].
  split; [apply Hq; reflexivity | split].
  - apply Hf; reflexivity.
  - apply Ha; discriminate.
Defined.

(** ** The mouse handlers *)

(** C6 (as amended).  With the corresponding host callback registered, a
    mouse-button event [(button, state, x, y)] and a motion event [(x, y)]
    whose differences [x - act_xoff] and [y - act_yoff] are representable
    as an [int] each make one call, to the stored callback, with [button]
    and [state] as received and exactly the coordinates
    [(x - act_xoff, y - act_yoff)]; in particular, when both offsets are
    zero the event is forwarded with [(x, y)] itself. *)
Theorem mouse_coordinates_remapped
        (W : world) (button state x y : Z) (s : shim) :
  CInt.in_int (x - act_xoff s) -> CInt.in_int (y - act_yoff s) ->
  (fr_mousefunc s <> NULL ->
   faked_mousefunc W button state x y s =
   Done tt (emit (Call (Ptr (fr_mousefunc s))
                       [VInt button; VInt state;
                        VInt (x - act_xoff s); VInt (y - act_yoff s)]) s)) /\
  (fr_motionfunc s <> NULL ->
   faked_motionfunc W x y s =
   Done tt (emit (Call (Ptr (fr_motionfunc s))
                       [VInt (x - act_xoff s); VInt (y - act_yoff s)]) s)) /\
  (act_xoff s = 0 -> act_yoff s = 0 ->
   (fr_mousefunc s <> NULL ->
    faked_mousefunc W button state x y s =
    Done tt (emit (Call (Ptr (fr_mousefunc s))
                        [VInt button; VInt state; VInt x; VInt y]) s)) /\
   (fr_motionfunc s <> NULL ->
    faked_motionfunc W x y s =
    Done tt (emit (Call (Ptr (fr_motionfunc s)) [VInt x; VInt y]) s))).
Proof.
  intros Hx Hy.
  assert (Ex : CInt.sub x (act_xoff s) = x - act_xoff s)
    by (apply sub_in_range; exact Hx).
  assert (Ey : CInt.sub y (act_yoff s) = y - act_yoff s)
    by (apply sub_in_range; exact Hy).
  assert (Hm : fr_mousefunc s <> NULL ->
               faked_mousefunc W button state x y s =
               Done tt (emit (Call (Ptr (fr_mousefunc s))
                                   [VInt button; VInt state;
                                    VInt (x - act_xoff s);
                                    VInt (y - act_yoff s)]) s)).
  { intros H. unfold faked_mousefunc, bind, load, ret.
    rewrite call_ok by exact H. now rewrite Ex, Ey. }
  assert (Hn : fr_motionfunc s <> NULL ->
               faked_motionfunc W x y s =
               Done tt (emit (Call (Ptr (fr_motionfunc s))
                                   [VInt (x - act_xoff s);
                                    VInt (y - act_yoff s)]) s)).
  { intros H. unfold faked_motionfunc, bind, load, ret.
    rewrite call_ok by exact H. now rewrite Ex, Ey. }
  split; [exact Hm | split; [exact Hn |]].
  intros Zx Zy. rewrite Zx, Zy, !Z.sub_0_r in Hm, Hn.
  split; assumption.
Qed.

Lemma mouse_coordinates_remapped_witness :
  (CInt.in_int
     (640 - act_xoff (final (init_manglers quiet_world 2000 900 registered))) /\
   CInt.in_int
     (360 - act_yoff (final (init_manglers quiet_world 2000 900 registered)))) /\
  faked_mousefunc quiet_world 0 1 640 360
    (final (init_manglers quiet_world 2000 900 registered)) =
  Done tt (emit (Call (Ptr (Host 4)) [VInt 0; VInt 1; VInt 440; VInt 360])
                (final (init_manglers quiet_world 2000 900 registered))) /\
  faked_motionfunc quiet_world 640 360 registered =
  Done tt (emit (Call (Ptr (Host 5)) [VInt 640; VInt 360]) registered).
Proof.
  assert (Hx : CInt.in_int
                 (640 - act_xoff (final (init_manglers quiet_world 2000 900
                                                        registered))))
    by (vm_compute; split; discriminate).
  assert (Hy : CInt.in_int
                 (360 - act_yoff (final (init_manglers quiet_world 2000 900
                                                        registered))))
    by (vm_compute; split; discriminate).
  assert (Hx0 : CInt.in_int (640 - act_xoff registered))
    by (vm_compute; split; discriminate).
  assert (Hy0 : CInt.in_int (360 - act_yoff registered))
    by (vm_compute; split; discriminate).
  split; [split; assumption |].
  split.
  - apply (mouse_coordinates_remapped quiet_world 0 1 640 360
             (final (init_manglers quiet_world 2000 900 registered)) Hx Hy).
    discriminate.
  - apply (mouse_coordinates_remapped quiet_world 0 1 640 360 registered
             Hx0 Hy0); [reflexivity | reflexivity | discriminate].
Defined.

(** Where [x - act_xoff] leaves [int] the forwarded coordinate has wrapped
    round: after a resize to 2000x900 the offset is 200, and a button event
    at [x = INT_MIN] reaches the stored callback with [x = 2147483448], not
    with [INT_MIN - 200]. *)
Lemma mouse_remap_wraps_below_int_min :
  (CInt.in_int (-2147483648) /\ CInt.in_int 0 /\
   fr_mousefunc (final (init_manglers quiet_world 2000 900 registered)) <> NULL /\
   act_xoff (final (init_manglers quiet_world 2000 900 registered)) = 200 /\
   act_yoff (final (init_manglers quiet_world 2000 900 registered)) = 0) /\
  faked_mousefunc quiet_world 0 1 (-2147483648) 0
    (final (init_manglers quiet_world 2000 900 registered)) =
  Done tt (emit (Call (Ptr (Host 4))
                      [VInt 0; VInt 1; VInt 2147483448; VInt 0])
                (final (init_manglers quiet_world 2000 900 registered))) /\
  faked_mousefunc quiet_world 0 1 (-2147483648) 0
    (final (init_manglers quiet_world 2000 900 registered)) <>
  Done tt (emit (Call (Ptr (Host 4))
                      [VInt 0; VInt 1; VInt (-2147483648 - 200); VInt (0 - 0)])
                (final (init_manglers quiet_world 2000 900 registered))).
Proof.
  split; [| split].
  - repeat split; try reflexivity; try discriminate.
  - reflexivity.
  - intros H.
    apply (f_equal (fun o => log (final o))) in H.
    vm_compute in H. discriminate H.
Qed.

(** ** Registration of the resize handler *)

Lemma run_app (W : world) (FIXDELAY : Z) (LOGDELAY : bool)
      (pre post : list op) (s : shim) :
  run W FIXDELAY LOGDELAY (pre ++ post) s =
  (run W FIXDELAY LOGDELAY pre ;; run W FIXDELAY LOGDELAY post) s.
Proof.
  revert s. induction pre as [| o pre IH]; intros s; cbn [run app].
  - reflexivity.
  - unfold bind in *. destruct (exec W FIXDELAY LOGDELAY o s) as [[] s1 | s1].
    + apply IH.
    + reflexivity.
Qed.

(** C9.  For every [func], [glutReshapeFunc] makes one call, to the real
    [glutReshapeFunc], registering [init_manglers]; [func] is discarded: no
    global changes, and neither the result of the call nor any run of the
    process that contains it depends on [func]. *)
Theorem glutReshapeFunc_discards
        (W : world) (FIXDELAY : Z) (LOGDELAY : bool)
        (func func' : funptr) (s : shim) (pre post : list op) :
  target W s S_glutReshapeFunc <> NULL ->
  (returned (glutReshapeFunc W func s) = Some tt /\
   calls (new_events s (final (glutReshapeFunc W func s))) =
   [Call (Ptr (target W s S_glutReshapeFunc)) [VFun (Own Init_manglers)]]) /\
  globals (final (glutReshapeFunc W func s)) = globals s /\
  glutReshapeFunc W func s = glutReshapeFunc W func' s /\
  run W FIXDELAY LOGDELAY (pre ++ Op_glutReshapeFunc func :: post) s =
  run W FIXDELAY LOGDELAY (pre ++ Op_glutReshapeFunc func' :: post) s.
Proof.
  intros T.
  assert (E : glutReshapeFunc W func s =
              Done tt (emit (Call (Ptr (target W s S_glutReshapeFunc))
                                  [VFun (Own Init_manglers)])
                            (resolved W S_glutReshapeFunc s))).
  { unfold glutReshapeFunc, bind, ret. rewrite resolve_eq.
    rewrite call_ok by exact T. reflexivity. }
  split; [| split; [| split]].
  - rewrite E. cbn [returned final]. split; [reflexivity |].
    now apply (calls_after_resolve W S_glutReshapeFunc).
  - rewrite E. cbn [final]. apply resolved_globals.
  - reflexivity.
  - rewrite !run_app. reflexivity.
Qed.

Lemma glutReshapeFunc_discards_witness :
  calls (new_events shim_init (final (glutReshapeFunc quiet_world (Host 9) shim_init))) =
  [Call (Ptr (Host 1)) [VFun (Own Init_manglers)]] /\
  globals (final (glutReshapeFunc quiet_world (Host 9) shim_init)) =
  globals shim_init.
Proof.
  destruct (glutReshapeFunc_discards quiet_world 1024 false (Host 9) NULL
              shim_init [] []) as [[_ Hc] [Hg _]].
  - discriminate.
  - split; [exact Hc | exact Hg].
Defined.

(** ** The symbol caches *)

Lemma symbol_eqb (a b : slot) : String.eqb (symbol a) (symbol b) = slot_eqb a b.
Proof. destruct a, b; reflexivity. Qed.

Lemma slot_eqb_refl (a : slot) : slot_eqb a a = true.
Proof. destruct a; reflexivity. Qed.

Lemma lookups_snoc (sym : string) (l : list event) (e : event) :
  lookups sym (l ++ [e]) =
  (lookups sym l + if is_lookup sym e then 1 else 0)%nat.
Proof.
  unfold lookups. rewrite filter_app, length_app. cbn [filter].
  destruct (is_lookup sym e); reflexivity.
Qed.

Lemma resolutions_snoc (sym : string) (l : list event) (e : event) :
  resolutions sym (l ++ [e]) =
  (resolutions sym l + if is_resolution sym e then 1 else 0)%nat.
Proof.
  unfold resolutions. rewrite filter_app, length_app. cbn [filter].
  destruct (is_resolution sym e); reflexivity.
Qed.

(** Resolving any slot leaves a populated slot alone. *)
Lemma slot_kept_resolved (W : world) (sl sl' : slot) (s : shim) :
  slot_kept sl s (resolved W sl' s).
Proof.
  intros Hp. unfold resolved.
  destruct (is_null (statics s sl')) eqn:N; [| split; reflexivity].
  assert (D : slot_eqb sl sl' = false).
  { destruct (slot_eqb sl sl') eqn:D; [| reflexivity].
    assert (sl = sl') by (destruct sl, sl'; try discriminate; reflexivity).
    subst sl'. destruct (statics s sl); [congruence | discriminate | discriminate]. }
  cbn [statics set_static log emit]. rewrite D. split; [reflexivity |].
  rewrite lookups_snoc. cbn [is_lookup].
  rewrite symbol_eqb.
  assert (D' : slot_eqb sl' sl = false) by (destruct sl, sl'; try discriminate; reflexivity).
  rewrite D'. apply Nat.add_0_r.
Qed.

Lemma slot_kept_run (W : world) (FIXDELAY : Z) (LOGDELAY : bool)
      (sl : slot) (os : list op) :
  frame (slot_kept sl) (run W FIXDELAY LOGDELAY os).
Proof.
  apply (frame_run W FIXDELAY LOGDELAY (slot_kept sl));
    try (intros; intros Hp; split; [reflexivity |];
         cbn [log emit]; rewrite ?lookups_snoc; cbn [is_lookup];
         auto using Nat.add_0_r).
  - intros s1 s2 s3 H12 H23 Hp.
    destruct (H12 Hp) as [E1 L1].
    assert (Hp2 : statics s2 sl <> NULL) by (rewrite E1; exact Hp).
    destruct (H23 Hp2) as [E2 L2].
    split; [now rewrite E2 | now rewrite L2].
  - intros sl' s. apply slot_kept_resolved.
Qed.

Lemma populated_once_resolved (W : world) (sl : slot) (s : shim) :
  populated_once s -> populated_once (resolved W sl s).
Proof.
  intros I x. unfold resolved.
  destruct (is_null (statics s sl)) eqn:N; [| apply I].
  cbn [statics set_static log emit]. rewrite resolutions_snoc.
  cbn [is_resolution]. rewrite symbol_eqb.
  destruct (slot_eqb sl x) eqn:D.
  - assert (sl = x) by (destruct sl, x; try discriminate; reflexivity).
    subst x. rewrite slot_eqb_refl, (I sl), N.
    destruct (dlsym_next W (log s) (symbol sl)); reflexivity.
  - assert (D' : slot_eqb x sl = false)
      by (destruct sl, x; try discriminate; reflexivity).
    rewrite D', (I x). cbn [andb]. apply Nat.add_0_r.
Qed.

Lemma populated_once_run (W : world) (FIXDELAY : Z) (LOGDELAY : bool)
      (os : list op) :
  frame keeps_populated_once (run W FIXDELAY LOGDELAY os).
Proof.
  apply (frame_run W FIXDELAY LOGDELAY keeps_populated_once);
    unfold keeps_populated_once.
  1: now auto.
  1: intros s1 s2 s3 H12 H23 H1; exact (H23 (H12 H1)).
  4: intros sl s; apply populated_once_resolved.
  all: intros; intros sl; cbn [log emit statics];
    rewrite ?resolutions_snoc; cbn [is_resolution];
    rewrite ?Nat.add_0_r; auto.
Qed.

Lemma populated_once_init : populated_once shim_init.
Proof. intros sl. reflexivity. Qed.

(** C7.  A slot that holds a pointer is used as it is, with no lookup;
    it keeps that pointer through any run of the process and is not looked
    up again; and over the whole life of a process no slot is populated by
    more than one lookup. *)
Theorem symbol_resolved_once
        (W : world) (FIXDELAY : Z) (LOGDELAY : bool)
        (sl : slot) (s : shim) (os os' : list op) :
  statics s sl <> NULL ->
  resolve W sl s = Done (statics s sl) s /\
  (statics (final (run W FIXDELAY LOGDELAY os s)) sl = statics s sl /\
   lookups (symbol sl) (log (final (run W FIXDELAY LOGDELAY os s))) =
   lookups (symbol sl) (log s)) /\
  (resolutions (symbol sl)
     (log (final (run W FIXDELAY LOGDELAY os' shim_init))) <= 1)%nat.
Proof.
  intros Hp. split; [| split].
  - rewrite resolve_eq. unfold target, resolved.
    destruct (statics s sl); [congruence | reflexivity | reflexivity].
  - exact (slot_kept_run W FIXDELAY LOGDELAY sl os s Hp).
  - pose proof (populated_once_run W FIXDELAY LOGDELAY os' shim_init
                  populated_once_init sl) as H.
    rewrite H.
    destruct (is_null (statics (final (run W FIXDELAY LOGDELAY os' shim_init)) sl));
      auto.
Qed.

Lemma symbol_resolved_once_witness :
  statics (final (snd_pcm_open quiet_world 16 "plughw:0,0" 0 0 shim_init))
          S_snd_pcm_open <> NULL /\
  lookups "snd_pcm_open"
    (log (final (run quiet_world 1024 false
                     [Op_snd_pcm_open 16 "plughw:0,0" 0 0;
                      Op_snd_pcm_open 32 "plughw:0,0" 0 0]
                     (final (snd_pcm_open quiet_world 16 "plughw:0,0" 0 0
                                          shim_init))))) = 1%nat /\
  (resolutions "snd_pcm_open"
     (log (final (run quiet_world 1024 false
                      [Op_snd_pcm_open 16 "plughw:0,0" 0 0;
                       Op_snd_pcm_open 32 "plughw:0,0" 0 0]
                      shim_init))) <= 1)%nat.
Proof.
  assert (H : statics (final (snd_pcm_open quiet_world 16 "plughw:0,0" 0 0
                                           shim_init))
                      S_snd_pcm_open <> NULL) by discriminate.
  split; [exact H |].
  destruct (symbol_resolved_once quiet_world 1024 false S_snd_pcm_open
              (final (snd_pcm_open quiet_world 16 "plughw:0,0" 0 0 shim_init))
              [Op_snd_pcm_open 16 "plughw:0,0" 0 0;
               Op_snd_pcm_open 32 "plughw:0,0" 0 0]
              [Op_snd_pcm_open 16 "plughw:0,0" 0 0;
               Op_snd_pcm_open 32 "plughw:0,0" 0 0] H)
    as [_ [[_ Hl] Hr]].
  split; [exact Hl | exact Hr].
Defined.

(** ** What a whole run hands to the outside *)

Section Emitting.

Variable W : world.
Variable FIXDELAY : Z.
Variable LOGDELAY : bool.
Variable P : event -> bool.

Lemma emits_ret {A} (a : A) : emits P (ret a).
Proof. intros s. exists []. split; [now rewrite app_nil_r | reflexivity]. Qed.

Lemma emits_load {A} (f : shim -> A) : emits P (load f).
Proof. intros s. exists []. split; [now rewrite app_nil_r | reflexivity]. Qed.

Lemma emits_store (f : shim -> shim) :
  (forall s, log (f s) = log s) -> emits P (store f).
Proof.
  intros H s. exists []. cbn [store final]. rewrite H.
  split; [now rewrite app_nil_r | reflexivity].
Qed.

Lemma emits_event (e : event) : P e = true -> emits P (store (emit e)).
Proof.
  intros H s. exists [e]. cbn [store final emit log forallb].
  now rewrite H.
Qed.

Lemma emits_bind {A B} (m : M A) (k : A -> M B) :
  emits P m -> (forall a, emits P (k a)) -> emits P (bind m k).
Proof.
  intros Hm Hk s. destruct (Hm s) as [l1 [E1 F1]]. unfold bind.
  destruct (m s) as [a s1 | s1]; cbn [final] in *.
  - destruct (Hk a s1) as [l2 [E2 F2]]. exists (l1 ++ l2).
    rewrite E2, E1, app_assoc, forallb_app, F1, F2. split; reflexivity.
  - exists l1. split; assumption.
Qed.

Lemma emits_if {A} (b : bool) (m1 m2 : M A) :
  emits P m1 -> emits P m2 -> emits P (if b then m1 else m2).
Proof. destruct b; auto. Qed.

Lemma emits_call (c : callee) (args : list val) :
  P (Call c args) = true -> emits P (call W c args).
Proof.
  intros H s. unfold call.
  destruct c as [[| |]|]; cbn [final log emit];
    [ exists []; split; [now rewrite app_nil_r | reflexivity]
    | eexists; split; [reflexivity | cbn [forallb]; now rewrite H] .. ].
Qed.

Lemma emits_query (pcm : Z) :
  (forall a d, P (AvailDelay pcm a d) = true) ->
  emits P (snd_pcm_avail_delay W pcm).
Proof.
  intros H s. unfold snd_pcm_avail_delay. cbn [final log emit].
  eexists [_]. split; [reflexivity |]. cbn [forallb]. now rewrite H.
Qed.

Lemma emits_resolve (sl : slot) :
  (forall r, P (Dlsym (symbol sl) r) = true) -> emits P (resolve W sl).
Proof.
  intros H s. rewrite resolve_eq. cbn [final]. rewrite resolved_log.
  exists (resolving W s sl). split; [reflexivity |].
  unfold resolving. destruct (is_null (statics s sl)); cbn [forallb];
    [now rewrite H | reflexivity].
Qed.

End Emitting.

Ltac emits_steps :=
  repeat first
    [ apply emits_ret | apply emits_load
    | apply emits_call; reflexivity
    | apply emits_query; reflexivity
    | apply emits_resolve; reflexivity
    | apply emits_store; intros; reflexivity
    | apply emits_event; reflexivity
    | apply emits_bind; [| intros ?]
    | apply emits_if ].




(** ** Registration of the host's callbacks *)

Lemma resolved_static (W : world) (sl : slot) (s : shim) :
  statics (resolved W sl s) sl = target W s sl.
Proof.
  unfold resolved, target. destruct (is_null (statics s sl)); [| reflexivity].
  cbn [statics set_static]. now rewrite slot_eqb_refl.
Qed.

Lemma target_cached (W : world) (sl : slot) (s : shim) :
  statics s sl <> NULL -> target W s sl = statics s sl.
Proof.
  intros H. unfold target. destruct (statics s sl); [congruence | reflexivity ..].
Qed.

Lemma snd_async_add_pcm_handler_eq
      (W : world) (handler pcm : Z) (callback : funptr) (private_data : Z)
      (s : shim) :
  target W s S_snd_async_add_pcm_handler <> NULL ->
  let real := target W s S_snd_async_add_pcm_handler in
  let args := [VPtr handler; VPtr pcm; VFun (Own Fake_callback);
               VPtr private_data] in
  snd_async_add_pcm_handler W handler pcm callback private_data s =
  Done (call_result W (log s ++ resolving W s S_snd_async_add_pcm_handler)
                    (Ptr real) args)
       (emit (Call (Ptr real) args)
             (set_fr_callback callback
                (resolved W S_snd_async_add_pcm_handler s))).
Proof.
  intros T real args. unfold snd_async_add_pcm_handler, bind, store.
  rewrite resolve_eq, call_ok by exact T.
  cbn [log set_fr_callback]. now rewrite resolved_log.
Qed.

(** X2.  When the real [snd_async_add_pcm_handler] resolves, the shim makes
    one call, to it, with [handler], [pcm] and [private_data] as given and
    [fake_callback] in place of the host's callback; it returns what that
    call returns and keeps the host's callback in [fr_callback]. *)
Theorem snd_async_add_pcm_handler_substitutes
        (W : world) (handler pcm : Z) (callback : funptr) (private_data : Z)
        (s : shim) :
  target W s S_snd_async_add_pcm_handler <> NULL ->
  let real := target W s S_snd_async_add_pcm_handler in
  let args := [VPtr handler; VPtr pcm; VFun (Own Fake_callback);
               VPtr private_data] in
  let o := snd_async_add_pcm_handler W handler pcm callback private_data s in
  calls (new_events s (final o)) = [Call (Ptr real) args] /\
  returned o =
  Some (call_result W (log s ++ resolving W s S_snd_async_add_pcm_handler)
                    (Ptr real) args) /\
  fr_callback (final o) = callback.
Proof.
  intros T real args o. subst o.
  rewrite (snd_async_add_pcm_handler_eq W handler pcm callback private_data s T).
  cbn [final returned]. split; [| split; reflexivity].
  now apply (calls_after_resolve W S_snd_async_add_pcm_handler).
Qed.

Lemma snd_async_add_pcm_handler_substitutes_witness :
  calls (new_events shim_init
           (final (snd_async_add_pcm_handler quiet_world 8 16 (Host 2) 24
                                              shim_init))) =
  [Call (Ptr (Host 1)) [VPtr 8; VPtr 16; VFun (Own Fake_callback); VPtr 24]] /\
  returned (snd_async_add_pcm_handler quiet_world 8 16 (Host 2) 24 shim_init) =
  Some 0 /\
  fr_callback (final (snd_async_add_pcm_handler quiet_world 8 16 (Host 2) 24
                                                 shim_init)) = Host 2.
Proof.
  apply (snd_async_add_pcm_handler_substitutes quiet_world 8 16 (Host 2) 24
           shim_init).
  discriminate.
Defined.

(** X3.  Registration is last-write-wins: after the host has registered
    [cb1] and then [cb2], a tick whose delay is below [FIXDELAY] calls [cb2]
    once and nothing else through a pointer; [cb1] is gone. *)
Theorem last_registered_callback_fires
        (W : world) (FIXDELAY : Z) (LOGDELAY : bool)
        (h1 p1 : Z) (cb1 : funptr) (d1 h2 p2 : Z) (cb2 : funptr) (d2 : Z)
        (ahandler : Z) (s : shim) :
  target W s S_snd_async_add_pcm_handler <> NULL ->
  cb2 <> NULL ->
  let twice := run W FIXDELAY LOGDELAY
                   [Op_snd_async_add_pcm_handler h1 p1 cb1 d1;
                    Op_snd_async_add_pcm_handler h2 p2 cb2 d2] s in
  let s2 := final twice in
  let get_pcm := Call (Lib "snd_async_handler_get_pcm") [VPtr ahandler] in
  let delay :=
    snd (pcm_avail_delay W (log s2 ++ [get_pcm])
           (call_result W (log s2) (Lib "snd_async_handler_get_pcm")
                        [VPtr ahandler])) in
  delay < FIXDELAY ->
  returned twice = Some tt /\
  fr_callback s2 = cb2 /\
  calls (new_events s2 (final (fake_callback W FIXDELAY LOGDELAY ahandler s2))) =
  [get_pcm; Call (Ptr cb2) [VPtr ahandler]].
Proof.
  intros T Hcb twice s2 get_pcm delay Hd.
  assert (E : twice =
              Done tt (final (snd_async_add_pcm_handler W h2 p2 cb2 d2
                        (final (snd_async_add_pcm_handler W h1 p1 cb1 d1 s))))).
  { subst twice. cbn [run exec]. unfold bind, ret.
    rewrite (snd_async_add_pcm_handler_eq W h1 p1 cb1 d1 s T). cbn [final].
    rewrite snd_async_add_pcm_handler_eq; [reflexivity |].
    rewrite target_cached;
      cbn [statics emit set_fr_callback]; rewrite resolved_static; exact T. }
  assert (F : fr_callback s2 = cb2).
  { subst s2. rewrite E. cbn [final].
    apply (registration_stores W cb2). }
  split; [now rewrite E | split; [exact F |]].
  assert (Hreg : fr_callback s2 <> NULL) by (rewrite F; exact Hcb).
  destruct (fake_callback_events W FIXDELAY LOGDELAY ahandler s2 Hreg) as [_ Hl].
  fold get_pcm in Hl. fold delay in Hl.
  apply new_events_app in Hl. rewrite Hl, F.
  destruct (Z.ltb_spec delay FIXDELAY); [| lia].
  unfold calls. destruct LOGDELAY; reflexivity.
Qed.

Lemma last_registered_callback_fires_witness :
  fr_callback
    (final (run quiet_world 1024 false
              [Op_snd_async_add_pcm_handler 8 16 (Host 2) 24;
               Op_snd_async_add_pcm_handler 8 16 (Host 6) 24] shim_init)) =
  Host 6 /\
  calls (new_events
           (final (run quiet_world 1024 false
                     [Op_snd_async_add_pcm_handler 8 16 (Host 2) 24;
                      Op_snd_async_add_pcm_handler 8 16 (Host 6) 24] shim_init))
           (final (fake_callback quiet_world 1024 false 7
                     (final (run quiet_world 1024 false
                               [Op_snd_async_add_pcm_handler 8 16 (Host 2) 24;
                                Op_snd_async_add_pcm_handler 8 16 (Host 6) 24]
                               shim_init))))) =
  [Call (Lib "snd_async_handler_get_pcm") [VPtr 7];
   Call (Ptr (Host 6)) [VPtr 7]].
Proof.
  destruct (last_registered_callback_fires quiet_world 1024 false
              8 16 (Host 2) 24 8 16 (Host 6) 24 7 shim_init)
    as [_ [Hf Hc]].
  - discriminate.
  - discriminate.
  - reflexivity.
  - split; [exact Hf | exact Hc].
Defined.

(** X4.  When the real registration functions resolve, [glutKeyboardFunc],
    [glutMouseFunc] and [glutPassiveMotionFunc] each make one call, to the
    real function of the same name, registering the shim's own handler, and
    keep the host's handler in the matching [fr_] global. *)
Theorem input_registration_substitutes (W : world) (func : funptr) (s : shim) :
  target W s S_glutKeyboardFunc <> NULL ->
  target W s S_glutMouseFunc <> NULL ->
  target W s S_glutPassiveMotionFunc <> NULL ->
  (returned (glutKeyboardFunc W func s) = Some tt /\
   calls (new_events s (final (glutKeyboardFunc W func s))) =
   [Call (Ptr (target W s S_glutKeyboardFunc)) [VFun (Own Faked_kbfunc)]] /\
   fr_kbfunc (final (glutKeyboardFunc W func s)) = func) /\
  (returned (glutMouseFunc W func s) = Some tt /\
   calls (new_events s (final (glutMouseFunc W func s))) =
   [Call (Ptr (target W s S_glutMouseFunc)) [VFun (Own Faked_mousefunc)]] /\
   fr_mousefunc (final (glutMouseFunc W func s)) = func) /\
  (returned (glutPassiveMotionFunc W func s) = Some tt /\
   calls (new_events s (final (glutPassiveMotionFunc W func s))) =
   [Call (Ptr (target W s S_glutPassiveMotionFunc))
         [VFun (Own Faked_motionfunc)]] /\
   fr_motionfunc (final (glutPassiveMotionFunc W func s)) = func).
Proof.
  intros Tk Tm Tp.
  split; [| split];
    unfold glutKeyboardFunc, glutMouseFunc, glutPassiveMotionFunc,
      bind, store, ret;
    rewrite resolve_eq, call_ok by assumption;
    cbn [returned final];
    (split; [reflexivity | split; [| reflexivity]]).
  - now apply (calls_after_resolve W S_glutKeyboardFunc).
  - now apply (calls_after_resolve W S_glutMouseFunc).
  - now apply (calls_after_resolve W S_glutPassiveMotionFunc).
Qed.

Lemma input_registration_substitutes_witness :
  calls (new_events shim_init (final (glutKeyboardFunc quiet_world (Host 3) shim_init))) =
  [Call (Ptr (Host 1)) [VFun (Own Faked_kbfunc)]] /\
  fr_mousefunc (final (glutMouseFunc quiet_world (Host 4) shim_init)) = Host 4 /\
  fr_motionfunc (final (glutPassiveMotionFunc quiet_world (Host 5) shim_init)) =
  Host 5.
Proof.
  destruct (input_registration_substitutes quiet_world (Host 3) shim_init)
    as [[_ [Hk _]] _]; [discriminate .. |].
  destruct (input_registration_substitutes quiet_world (Host 4) shim_init)
    as [_ [[_ [_ Hm]] _]]; [discriminate .. |].
  destruct (input_registration_substitutes quiet_world (Host 5) shim_init)
    as [_ [_ [_ [_ Hp]]]]; [discriminate .. |].
  split; [exact Hk | split; [exact Hm | exact Hp]].
Defined.

(** ** Events that arrive before registration *)

(** X5.  A tick that arrives while no audio callback is registered still
    makes its query; it returns normally when the delay is [FIXDELAY] or
    more, and crashes on the null callback, after the query, when the delay
    is below [FIXDELAY].  Either way nothing is called through a pointer. *)
Theorem fake_callback_unregistered
        (W : world) (FIXDELAY : Z) (LOGDELAY : bool) (ahandler : Z) (s : shim) :
  fr_callback s = NULL ->
  let get_pcm := Call (Lib "snd_async_handler_get_pcm") [VPtr ahandler] in
  let pcm := call_result W (log s) (Lib "snd_async_handler_get_pcm")
                         [VPtr ahandler] in
  let delay := snd (pcm_avail_delay W (log s ++ [get_pcm]) pcm) in
  let o := fake_callback W FIXDELAY LOGDELAY ahandler s in
  queries (new_events s (final o)) = 1%nat /\
  calls (new_events s (final o)) = [get_pcm] /\
  (FIXDELAY <= delay -> returned o = Some tt) /\
  (delay < FIXDELAY -> returned o = None).
Proof.
  intros Hcb get_pcm pcm delay o.
  assert (E : log (final o) =
              log s ++ [get_pcm; AvailDelay pcm
                          (fst (pcm_avail_delay W (log s ++ [get_pcm]) pcm)) delay]
                    ++ (if LOGDELAY then [Printf delay] else []) /\
              returned o = if delay <? FIXDELAY then None else Some tt).
  { subst o. unfold fake_callback, bind, snd_pcm_avail_delay, store, load, ret.
    cbn [call]. fold get_pcm pcm. cbn [log emit]. fold delay.
    destruct LOGDELAY; destruct (delay <? FIXDELAY);
      cbn [fr_callback emit log]; rewrite ?Hcb;
      cbn [returned final log emit]; rewrite <- ?app_assoc;
      split; reflexivity. }
  destruct E as [El Er]. apply new_events_app in El. rewrite El, Er.
  split; [| split; [| split]].
  - destruct LOGDELAY; reflexivity.
  - destruct LOGDELAY; reflexivity.
  - intros H. destruct (Z.ltb_spec delay FIXDELAY); [lia | reflexivity].
  - intros H. destruct (Z.ltb_spec delay FIXDELAY); [reflexivity | lia].
Qed.

Lemma fake_callback_unregistered_witness :
  returned (fake_callback quiet_world 64 false 7 shim_init) = Some tt /\
  returned (fake_callback quiet_world 1024 false 7 shim_init) = None /\
  calls (new_events shim_init (final (fake_callback quiet_world 1024 false 7 shim_init))) =
  [Call (Lib "snd_async_handler_get_pcm") [VPtr 7]].
Proof.
  destruct (fake_callback_unregistered quiet_world 64 false 7 shim_init eq_refl)
    as [_ [_ [Hge _]]].
  destruct (fake_callback_unregistered quiet_world 1024 false 7 shim_init eq_refl)
    as [_ [Hc [_ Hlt]]].
  split; [apply Hge; discriminate | split; [apply Hlt; reflexivity | exact Hc]].
Defined.

(** X6.  While no input callback is registered the two hotkeys still work:
    ['q'] and ['f'] are handled as always, every other key crashes on the
    null [fr_kbfunc], and every mouse-button or motion event crashes on the
    null [fr_mousefunc] or [fr_motionfunc]; none of the crashes calls
    anything or changes any global. *)
Theorem input_events_unregistered
        (W : world) (key : ascii) (button state x y : Z) (s : shim) :
  fr_kbfunc s = NULL -> fr_mousefunc s = NULL -> fr_motionfunc s = NULL ->
  returned (faked_kbfunc W "q" x y s) = Some tt /\
  (fs s = 0 -> returned (faked_kbfunc W "f" x y s) = Some tt) /\
  (key <> "q"%char -> key <> "f"%char ->
   returned (faked_kbfunc W key x y s) = None /\
   calls (new_events s (final (faked_kbfunc W key x y s))) = [] /\
   globals (final (faked_kbfunc W key x y s)) = globals s) /\
  faked_mousefunc W button state x y s = Segv s /\
  faked_motionfunc W x y s = Segv s.
Proof.
  intros Hk Hm Hn. split; [| split; [| split; [| split]]].
  - now rewrite faked_kbfunc_q.
  - intros F. now rewrite (faked_kbfunc_f_enter W x y s F).
  - intros Q F. apply Ascii.eqb_neq in Q, F.
    assert (E : faked_kbfunc W key x y s = Segv (resolved W S_glrw s)).
    { unfold faked_kbfunc, bind. rewrite resolve_eq, Q, F. unfold load.
      now rewrite resolved_fr_kbfunc, Hk. }
    rewrite E. cbn [returned final]. split; [reflexivity | split].
    + rewrite (new_events_app s _ _ (resolved_log W S_glrw s)).
      unfold resolving. destruct (is_null (statics s S_glrw)); reflexivity.
    + apply resolved_globals.
  - unfold faked_mousefunc, bind, load. now rewrite Hm.
  - unfold faked_motionfunc, bind, load. now rewrite Hn.
Qed.

Lemma input_events_unregistered_witness :
  returned (faked_kbfunc quiet_world "q" 0 0 shim_init) = Some tt /\
  returned (faked_kbfunc quiet_world "a" 0 0 shim_init) = None /\
  faked_mousefunc quiet_world 0 0 10 20 shim_init = Segv shim_init.
Proof.
  destruct (input_events_unregistered quiet_world "a" 0 0 10 20 shim_init
              eq_refl eq_refl eq_refl) as [_ [_ [_ [Hm _]]]].
  destruct (input_events_unregistered quiet_world "a" 0 0 0 0 shim_init
              eq_refl eq_refl eq_refl) as [Hq [_ [Ha0 _]]].
  split; [exact Hq | split; [| exact Hm]].
  apply Ha0; discriminate.
Defined.

(** ** Symbols that do not resolve *)

Lemma resolved_unresolved (W : world) (sl : slot) (s : shim) :
  target W s sl = NULL ->
  log (resolved W sl s) = log s ++ [Dlsym (symbol sl) NULL] /\
  (forall x, statics (resolved W sl s) x = statics s x).
Proof.
  unfold target, resolved. intros T.
  destruct (is_null (statics s sl)) eqn:N.
  - rewrite T. cbn [log statics set_static emit]. split; [reflexivity |].
    intros x. destruct (slot_eqb x sl) eqn:D; [| reflexivity].
    assert (x = sl) by (destruct x, sl; try discriminate; reflexivity).
    subst x. destruct (statics s sl); [reflexivity | discriminate ..].
  - rewrite T in N. discriminate.
Qed.

(** X7.  When the symbol an interposed function forwards to does not
    resolve, the function crashes on the null pointer right after the
    failed lookup: the lookup is the only thing it has done to the outside,
    no call has been made, and the caches are as they were. *)
Theorem unresolved_symbol_crashes
        (W : world) (FIXDELAY : Z) (LOGDELAY : bool)
        (o : op) (sl : slot) (s : shim) :
  forwards_through o = Some sl ->
  target W s sl = NULL ->
  returned (exec W FIXDELAY LOGDELAY o s) = None /\
  new_events s (final (exec W FIXDELAY LOGDELAY o s)) =
  [Dlsym (symbol sl) NULL] /\
  (forall x, statics (final (exec W FIXDELAY LOGDELAY o s)) x = statics s x).
Proof.
  intros F T. destruct (resolved_unresolved W sl s T) as [L S].
  destruct o; cbn [forwards_through] in F; try discriminate;
    injection F as <-; cbn [exec];
    unfold snd_pcm_open, snd_async_add_pcm_handler, init_manglers,
      glutReshapeFunc, glutKeyboardFunc, glutMouseFunc,
      glutPassiveMotionFunc, bind, store, load, ret;
    rewrite resolve_eq, T;
    repeat match goal with
           | |- context [if ?b then _ else _] => destruct b
           end;
    cbn [call returned final];
    (split; [reflexivity | split; [apply new_events_app; exact L | exact S]]).
Qed.

Lemma unresolved_symbol_crashes_witness :
  returned (exec deaf_world 1024 false
                 (Op_snd_pcm_open 16 "plughw:0,0" 0 0) shim_init) = None /\
  new_events shim_init
    (final (exec deaf_world 1024 false
                 (Op_snd_pcm_open 16 "plughw:0,0" 0 0) shim_init)) =
  [Dlsym "snd_pcm_open" NULL].
Proof.
  destruct (unresolved_symbol_crashes deaf_world 1024 false
              (Op_snd_pcm_open 16 "plughw:0,0" 0 0) S_snd_pcm_open shim_init
              eq_refl eq_refl) as [Hr [He _]].
  split; [exact Hr | exact He].
Defined.

Lemma lookups_no_dlsym (sym : string) (l : list event) :
  forallb no_dlsym l = true -> lookups sym l = 0%nat.
Proof.
  unfold lookups. induction l as [| e l IH]; cbn [forallb filter]; intros H.
  - reflexivity.
  - apply andb_true_iff in H. destruct H as [He Hl].
    destruct e; try discriminate; cbn [is_lookup]; now apply IH.
Qed.

(** X8.  The keyboard handler tolerates an unresolved [glutReshapeWindow]:
    it looks the symbol up once on every key event, leaving the slot null,
    and only the key ['f'] pressed while the fullscreen flag is set crashes,
    with no call made and the flag still set. *)
Theorem faked_kbfunc_unresolved
        (W : world) (key : ascii) (x y : Z) (s : shim) :
  target W s S_glrw = NULL ->
  let o := faked_kbfunc W key x y s in
  statics (final o) S_glrw = NULL /\
  lookups "glutReshapeWindow" (new_events s (final o)) = 1%nat /\
  (key = "f"%char -> fs s <> 0 ->
   returned o = None /\ calls (new_events s (final o)) = [] /\
   fs (final o) = fs s) /\
  (fr_kbfunc s <> NULL -> (key <> "f"%char \/ fs s = 0) ->
   returned o = Some tt).
Proof.
  intros T o. destruct (resolved_unresolved W S_glrw s T) as [L S].
  assert (N : statics s S_glrw = NULL).
  { unfold target in T. destruct (statics s S_glrw); [reflexivity | discriminate ..]. }
  assert (Ev : forall l s', log s' = log (resolved W S_glrw s) ++ l ->
                            forallb no_dlsym l = true ->
                            lookups "glutReshapeWindow" (new_events s s') = 1%nat /\
                            (calls l = [] -> calls (new_events s s') = [])).
  { intros l s' Hl Hn.
    rewrite (new_events_app s s' ([Dlsym (symbol S_glrw) NULL] ++ l))
      by (rewrite Hl, L; now rewrite app_assoc).
    split.
    - unfold lookups. rewrite filter_app, length_app.
      fold (lookups "glutReshapeWindow" l).
      now rewrite (lookups_no_dlsym _ l Hn).
    - intros C. unfold calls in *. cbn [app filter is_call]. exact C. }
  subst o. unfold faked_kbfunc, bind, load, store, ret.
  rewrite resolve_eq, T.
  destruct (Ascii.eqb_spec key "q") as [-> | Q];
    [| destruct (Ascii.eqb_spec key "f") as [-> | F]].
  - cbn [call final returned].
    destruct (Ev [Call (Lib "glutLeaveMainLoop") []]
                 (emit (Call (Lib "glutLeaveMainLoop") []) (resolved W S_glrw s))
                 eq_refl eq_refl) as [E1 _].
    split; [cbn [statics emit]; now rewrite S |].
    split; [exact E1 |].
    split; [discriminate | reflexivity].
  - rewrite resolved_fs.
    destruct (Z.eqb_spec (fs s) 0) as [Z0 | Z0]; cbn [negb call final returned].
    + destruct (Ev [Call (Lib "glutFullScreen") []]
                   (set_fs 1 (emit (Call (Lib "glutFullScreen") [])
                                   (resolved W S_glrw s)))
                   eq_refl eq_refl) as [E1 _].
      split; [cbn [statics emit set_fs]; now rewrite S |].
      split; [exact E1 |].
      split; [contradiction | reflexivity].
    + destruct (Ev [] (resolved W S_glrw s)) as [E1 E2];
        [now rewrite app_nil_r | reflexivity |].
      split; [now rewrite S |].
      split; [exact E1 |].
      split.
      * intros _ _. split; [reflexivity | split; [now apply E2 | apply resolved_fs]].
      * intros _ [H | H]; [congruence | contradiction].
  - rewrite resolved_fr_kbfunc. unfold call.
    destruct (fr_kbfunc s) eqn:K; cbn [final returned].
    + destruct (Ev [] (resolved W S_glrw s)) as [E1 _];
        [now rewrite app_nil_r | reflexivity |].
      split; [now rewrite S |].
      split; [exact E1 |].
      split; [congruence | congruence].
    + destruct (Ev [Call (Ptr (Host addr)) [VInt (key_code key); VInt x; VInt y]]
                   (emit (Call (Ptr (Host addr))
                               [VInt (key_code key); VInt x; VInt y])
                         (resolved W S_glrw s)) eq_refl eq_refl) as [E1 _].
      split; [cbn [statics emit]; now rewrite S |].
      split; [exact E1 |].
      split; [congruence | reflexivity].
    + destruct (Ev [Call (Ptr (Own f)) [VInt (key_code key); VInt x; VInt y]]
                   (emit (Call (Ptr (Own f))
                               [VInt (key_code key); VInt x; VInt y])
                         (resolved W S_glrw s)) eq_refl eq_refl) as [E1 _].
      split; [cbn [statics emit]; now rewrite S |].
      split; [exact E1 |].
      split; [congruence | reflexivity].
Qed.

Lemma faked_kbfunc_unresolved_witness :
  lookups "glutReshapeWindow"
    (new_events registered (final (faked_kbfunc deaf_world "a" 0 0 registered))) =
  1%nat /\
  returned (faked_kbfunc deaf_world "a" 0 0 registered) = Some tt /\
  returned (faked_kbfunc deaf_world "f" 0 0
              (final (faked_kbfunc deaf_world "f" 0 0 registered))) = None.
Proof.
  destruct (faked_kbfunc_unresolved deaf_world "a" 0 0 registered eq_refl)
    as [_ [Hl [_ Ha]]].
  destruct (faked_kbfunc_unresolved deaf_world "f" 0 0
              (final (faked_kbfunc deaf_world "f" 0 0 registered)) eq_refl)
    as [_ [_ [Hf _]]].
  split; [exact Hl | split].
  - apply Ha; [discriminate | left; discriminate].
  - apply Hf; [reflexivity | discriminate].
Defined.

(** ** The fullscreen flag *)

Lemma flag_kept_exec (W : world) (FIXDELAY : Z) (LOGDELAY : bool) (o : op) :
  frame flag_kept (exec W FIXDELAY LOGDELAY o).
Proof.
  assert (Rr : forall s, flag_kept s s) by (intros s H; exact H).
  assert (Rt : forall s1 s2 s3,
             flag_kept s1 s2 -> flag_kept s2 s3 -> flag_kept s1 s3)
    by (unfold flag_kept; auto).
  assert (Rc : forall s c args, flag_kept s (emit (Call c args) s))
    by (intros s c a H; exact H).
  assert (Rq : forall s pcm a d, flag_kept s (emit (AvailDelay pcm a d) s))
    by (intros s pcm a d H; exact H).
  assert (Rs : forall sl s, flag_kept s (resolved W sl s))
    by (intros sl s H; unfold flag_kept; now rewrite resolved_fs).
  destruct o; cbn [exec];
    unfold snd_pcm_open, fake_callback, snd_async_add_pcm_handler,
      init_manglers, glutReshapeFunc, glViewport, glutReshapeWindow,
      faked_kbfunc, glutKeyboardFunc, faked_mousefunc, faked_motionfunc,
      glutMouseFunc, glutPassiveMotionFunc;
    repeat first
      [ apply (frame_ret _ Rr) | apply (frame_load _ Rr)
      | apply (frame_call W _ Rr Rc) | apply (frame_query W _ Rq)
      | apply (frame_resolve W _ Rs)
      | apply frame_store; intros s0 H0;
        first [exact H0 | left; reflexivity | right; reflexivity]
      | apply (frame_bind _ Rt); [| intros ?]
      | apply frame_if ].
Qed.

(** X9.  [fs] is a flag throughout the life of a process: whatever arrives,
    it is 0 or 1. *)
Theorem fs_is_a_flag
        (W : world) (FIXDELAY : Z) (LOGDELAY : bool) (os : list op) :
  is_flag (fs (final (run W FIXDELAY LOGDELAY os shim_init))).
Proof.
  assert (H : frame flag_kept (run W FIXDELAY LOGDELAY os)).
  { induction os as [| o rest IH]; cbn [run].
    - intros s Hs. exact Hs.
    - apply frame_bind.
      + unfold flag_kept; auto.
      + apply flag_kept_exec.
      + intros _. exact IH. }
  apply H. left. reflexivity.
Qed.

(** X10.  Pressing ['f'] twice from windowed mode enters fullscreen and
    comes back: the two calls made are [glutFullScreen] and then the real
    [glutReshapeWindow] with [(1280, 720)], through the pointer the first
    press cached, and the flag is clear again. *)
Theorem fullscreen_round_trip
        (W : world) (FIXDELAY : Z) (LOGDELAY : bool) (x y x' y' : Z) (s : shim) :
  fs s = 0 -> target W s S_glrw <> NULL ->
  let twice := run W FIXDELAY LOGDELAY
                   [Op_faked_kbfunc "f" x y; Op_faked_kbfunc "f" x' y'] s in
  returned twice = Some tt /\
  calls (new_events s (final twice)) =
  [Call (Lib "glutFullScreen") [];
   Call (Ptr (target W s S_glrw)) [VInt 1280; VInt 720]] /\
  fs (final twice) = 0 /\
  lookups "glutReshapeWindow" (new_events s (final twice)) =
  List.length (resolving W s S_glrw).
Proof.
  intros F T twice.
  set (s1 := set_fs 1 (emit (Call (Lib "glutFullScreen") [])
                            (resolved W S_glrw s))).
  assert (St : statics s1 S_glrw = target W s S_glrw)
    by (subst s1; cbn [statics set_fs emit]; apply resolved_static).
  assert (T1 : target W s1 S_glrw = target W s S_glrw)
    by (rewrite target_cached; rewrite St; [reflexivity | exact T]).
  assert (R1 : resolved W S_glrw s1 = s1).
  { unfold resolved. rewrite St.
    destruct (target W s S_glrw); [congruence | reflexivity ..]. }
  assert (E : twice =
              Done tt (set_fs 0 (emit (Call (Ptr (target W s S_glrw))
                                            [VInt 1280; VInt 720]) s1))).
  { subst twice. cbn [run exec]. unfold bind at 1.
    rewrite (faked_kbfunc_f_enter W x y s F). fold s1. unfold bind, ret.
    rewrite (faked_kbfunc_f_leave W x' y' s1);
      [now rewrite T1, R1 | subst s1; cbn; discriminate | now rewrite T1]. }
  rewrite E. cbn [returned final].
  assert (L : log (set_fs 0 (emit (Call (Ptr (target W s S_glrw))
                                        [VInt 1280; VInt 720]) s1)) =
              log s ++ (resolving W s S_glrw ++
                        [Call (Lib "glutFullScreen") [];
                         Call (Ptr (target W s S_glrw)) [VInt 1280; VInt 720]])).
  { subst s1. cbn [log set_fs emit]. rewrite resolved_log.
    now rewrite <- !app_assoc. }
  rewrite (new_events_app _ _ _ L).
  split; [reflexivity | split; [| split; [reflexivity |]]];
    unfold calls, lookups, resolving;
    destruct (is_null (statics s S_glrw)); reflexivity.
Qed.

Lemma fullscreen_round_trip_witness :
  calls (new_events registered
           (final (run quiet_world 1024 false
                     [Op_faked_kbfunc "f" 0 0; Op_faked_kbfunc "f" 0 0]
                     registered))) =
  [Call (Lib "glutFullScreen") [];
   Call (Ptr (Host 1)) [VInt 1280; VInt 720]] /\
  fs (final (run quiet_world 1024 false
                 [Op_faked_kbfunc "f" 0 0; Op_faked_kbfunc "f" 0 0]
                 registered)) = 0.
Proof.
  destruct (fullscreen_round_trip quiet_world 1024 false 0 0 0 0 registered)
    as [_ [Hc [Hf _]]].
  - reflexivity.
  - discriminate.
  - split; [exact Hc | exact Hf].
Defined.

(** ** The viewport and the pointer *)

(** X11.  When the real [glViewport] resolves, a resize makes exactly one
    call, to it, and the rectangle it sets as the viewport is the one the
    handler has just stored, as [(x, y, width, height)]. *)
Theorem init_manglers_sets_viewport (W : world) (w h : Z) (s : shim) :
  target W s S_glvp <> NULL ->
  returned (init_manglers W w h s) = Some tt /\
  calls (new_events s (final (init_manglers W w h s))) =
  [Call (Ptr (target W s S_glvp))
        [VInt (act_xoff (final (init_manglers W w h s)));
         VInt (act_yoff (final (init_manglers W w h s)));
         VInt (act_w (final (init_manglers W w h s)));
         VInt (act_h (final (init_manglers W w h s)))]].
Proof.
  intros T. destruct (init_manglers_returns W w h s T) as [Hr Hl].
  split; [exact Hr |].
  rewrite (new_events_app _ _ _ Hl).
  unfold calls, resolving. destruct (is_null (statics s S_glvp)); reflexivity.
Qed.

Lemma init_manglers_sets_viewport_witness :
  calls (new_events shim_init (final (init_manglers quiet_world 2000 900 shim_init))) =
  [Call (Ptr (Host 1)) [VInt 200; VInt 0; VInt 1600; VInt 900]].
Proof.
  destruct (init_manglers_sets_viewport quiet_world 2000 900 shim_init)
    as [_ H]; [discriminate | exact H].
Defined.

(** X12.  Within the range of C1 the stored rectangle fills the window on
    one axis: a window no wider than 16:9 ([9 w <= 16 h]) keeps its full
    width with no horizontal offset, a window no taller than 16:9
    ([16 h <= 9 w]) keeps its full height with no vertical offset, and a
    window that is exactly 16:9 is used whole. *)
Theorem init_manglers_fills_an_axis (W : world) (w h : Z) (s : shim) :
  0 < w <= CInt.INT_MAX -> 0 < h -> 16 * h <= CInt.INT_MAX ->
  (9 * w <= 16 * h ->
   act_w (final (init_manglers W w h s)) = w /\
   act_xoff (final (init_manglers W w h s)) = 0) /\
  (16 * h <= 9 * w ->
   act_h (final (init_manglers W w h s)) = h /\
   act_yoff (final (init_manglers W w h s)) = 0) /\
  (9 * w = 16 * h ->
   geometry (final (init_manglers W w h s)) = (w, h, 0, 0)).
Proof.
  intros Hw Hh Hb.
  pose proof (init_manglers_exact W w h s Hw Hh Hb) as G.
  unfold CInt.INT_MAX in *. unfold geometry in *.
  destruct (final (init_manglers W w h s)) as [st cb aw ah xo yo f kb mo mt lg].
  cbn [act_w act_h act_xoff act_yoff] in *.
  destruct (Z.eqb_spec w (h * 16 / 9)) as [E | NE];
    [| destruct (Z.ltb_spec w (h * 16 / 9)) as [L | L]];
    injection G as -> -> -> ->;
    (split; [| split]); intros H;
    try (split; try reflexivity); try reflexivity;
    exfalso; Z.div_mod_to_equations; lia.
Qed.

Lemma init_manglers_fills_an_axis_witness :
  geometry (final (init_manglers quiet_world 1280 720 shim_init)) =
  (1280, 720, 0, 0) /\
  act_w (final (init_manglers quiet_world 1000 1000 shim_init)) = 1000.
Proof.
  destruct (init_manglers_fills_an_axis quiet_world 1280 720 shim_init)
    as [_ [_ H1]]; [unfold CInt.INT_MAX; lia .. |].
  destruct (init_manglers_fills_an_axis quiet_world 1000 1000 shim_init)
    as [H2 _]; [unfold CInt.INT_MAX; lia .. |].
  split; [apply H1; reflexivity | apply H2; lia].
Defined.

(** A resize leaves the registered callbacks alone. *)
Lemma init_manglers_keeps_callbacks (W : world) (w h : Z) (s : shim) :
  fr_mousefunc (final (init_manglers W w h s)) = fr_mousefunc s /\
  fr_motionfunc (final (init_manglers W w h s)) = fr_motionfunc s.
Proof.
  set (R := fun s s' : shim =>
              fr_mousefunc s' = fr_mousefunc s /\
              fr_motionfunc s' = fr_motionfunc s).
  assert (Rr : forall s, R s s) by (intros; split; reflexivity).
  assert (Rt : forall s1 s2 s3, R s1 s2 -> R s2 s3 -> R s1 s3)
    by (intros s1 s2 s3 [A1 A2] [B1 B2]; split; congruence).
  assert (Rc : forall s c args, R s (emit (Call c args) s))
    by (intros; split; reflexivity).
  assert (Rs : forall sl s, R s (resolved W sl s)).
  { intros sl s0. unfold R, resolved.
    destruct (is_null (statics s0 sl)); split; reflexivity. }
  change (R s (final (init_manglers W w h s))). revert s.
  change (frame R (init_manglers W w h)). unfold init_manglers.
  repeat first
    [ apply (frame_ret _ Rr) | apply (frame_load _ Rr)
    | apply (frame_call W _ Rr Rc) | apply (frame_resolve W _ Rs)
    | apply frame_store; intros; split; reflexivity
    | apply (frame_bind _ Rt); [| intros ?]
    | apply frame_if ].
Qed.

(** X13.  After a resize within the range of C1, pointer events are
    remapped without wrap-around: for every position with coordinates from
    [-1073741824] up, the stored callbacks receive the exact integers
    [(x - act_xoff, y - act_yoff)], coordinates relative to the corner of
    the viewport that the resize has set. *)
Theorem pointer_relative_to_viewport
        (W : world) (w h button state x y : Z) (s : shim) :
  0 < w <= CInt.INT_MAX -> 0 < h -> 16 * h <= CInt.INT_MAX ->
  -1073741824 <= x <= CInt.INT_MAX -> -1073741824 <= y <= CInt.INT_MAX ->
  fr_mousefunc s <> NULL -> fr_motionfunc s <> NULL ->
  let s' := final (init_manglers W w h s) in
  faked_mousefunc W button state x y s' =
  Done tt (emit (Call (Ptr (fr_mousefunc s))
                      [VInt button; VInt state;
                       VInt (x - act_xoff s'); VInt (y - act_yoff s')]) s') /\
  faked_motionfunc W x y s' =
  Done tt (emit (Call (Ptr (fr_motionfunc s))
                      [VInt (x - act_xoff s'); VInt (y - act_yoff s')]) s').
Proof.
  intros Hw Hh Hb Hx Hy Hm Hn s'.
  destruct (init_manglers_keeps_callbacks W w h s) as [Km Kn].
  fold s' in Km, Kn.
  assert (B : 0 <= act_xoff s' <= 1073741823 /\ 0 <= act_yoff s' <= 1073741823).
  { pose proof (init_manglers_exact W w h s Hw Hh Hb) as G. fold s' in G.
    unfold CInt.INT_MAX in *. unfold geometry in G.
    destruct s' as [st cb aw ah xo yo f kb mo mt lg].
    cbn [act_w act_h act_xoff act_yoff] in *.
    destruct (Z.eqb_spec w (h * 16 / 9)) as [E | NE];
      [| destruct (Z.ltb_spec w (h * 16 / 9)) as [L | L]];
      injection G as -> -> -> ->;
      split; split; Z.div_mod_to_equations; lia. }
  assert (Ex : CInt.sub x (act_xoff s') = x - act_xoff s')
    by (apply sub_in_range;
        unfold CInt.in_int, CInt.INT_MIN, CInt.INT_MAX in *; lia).
  assert (Ey : CInt.sub y (act_yoff s') = y - act_yoff s')
    by (apply sub_in_range;
        unfold CInt.in_int, CInt.INT_MIN, CInt.INT_MAX in *; lia).
  split.
  - unfold faked_mousefunc, bind, load, ret.
    rewrite call_ok by (rewrite Km; exact Hm). now rewrite Km, Ex, Ey.
  - unfold faked_motionfunc, bind, load, ret.
    rewrite call_ok by (rewrite Kn; exact Hn). now rewrite Kn, Ex, Ey.
Qed.

Lemma pointer_relative_to_viewport_witness :
  faked_mousefunc quiet_world 0 1 200 0
    (final (init_manglers quiet_world 2000 900 registered)) =
  Done tt (emit (Call (Ptr (Host 4)) [VInt 0; VInt 1; VInt 0; VInt 0])
                (final (init_manglers quiet_world 2000 900 registered))).
Proof.
  apply (pointer_relative_to_viewport quiet_world 2000 900 0 1 200 0 registered);
    try (unfold CInt.INT_MAX; lia); discriminate.
Defined.

(** ** The callbacks and the caches *)

(** X14.  The callbacks a real library fires asynchronously or per event
    ([fake_callback], [faked_mousefunc], [faked_motionfunc]) never look a
    symbol up and never write a cache slot or a global: whether they return
    or crash, only the log of calls differs afterwards. *)
Theorem callbacks_touch_no_state
        (W : world) (FIXDELAY : Z) (LOGDELAY : bool)
        (ahandler button state x y : Z) (s : shim) :
  (only_logged s (final (fake_callback W FIXDELAY LOGDELAY ahandler s)) /\
   forallb no_dlsym
     (new_events s (final (fake_callback W FIXDELAY LOGDELAY ahandler s))) = true) /\
  (only_logged s (final (faked_mousefunc W button state x y s)) /\
   forallb no_dlsym
     (new_events s (final (faked_mousefunc W button state x y s))) = true) /\
  (only_logged s (final (faked_motionfunc W x y s)) /\
   forallb no_dlsym
     (new_events s (final (faked_motionfunc W x y s))) = true).
Proof.
  assert (Rr : forall s, only_logged s s) by (intros; split; reflexivity).
  assert (Rt : forall s1 s2 s3,
             only_logged s1 s2 -> only_logged s2 s3 -> only_logged s1 s3).
  { intros s1 s2 s3 [A1 A2] [B1 B2]. split; [| congruence].
    intros sl. now rewrite B1. }
  assert (Rc : forall s c args, only_logged s (emit (Call c args) s))
    by (intros; split; reflexivity).
  assert (Rq : forall s pcm a d, only_logged s (emit (AvailDelay pcm a d) s))
    by (intros; split; reflexivity).
  assert (F : frame only_logged (fake_callback W FIXDELAY LOGDELAY ahandler) /\
              frame only_logged (faked_mousefunc W button state x y) /\
              frame only_logged (faked_motionfunc W x y)).
  { unfold fake_callback, faked_mousefunc, faked_motionfunc.
    repeat split;
      repeat first
        [ apply (frame_ret _ Rr) | apply (frame_load _ Rr)
        | apply (frame_call W _ Rr Rc) | apply (frame_query W _ Rq)
        | apply frame_store; intros; split; reflexivity
        | apply (frame_bind _ Rt); [| intros ?]
        | apply frame_if ]. }
  assert (E : emits no_dlsym (fake_callback W FIXDELAY LOGDELAY ahandler) /\
              emits no_dlsym (faked_mousefunc W button state x y) /\
              emits no_dlsym (faked_motionfunc W x y)).
  { unfold fake_callback, faked_mousefunc, faked_motionfunc.
    repeat split; emits_steps. }
  destruct F as [F1 [F2 F3]]. destruct E as [E1 [E2 E3]].
  repeat split;
    try apply F1; try apply F2; try apply F3;
    match goal with
    | |- forallb _ (new_events s (final (?m s))) = true =>
        let l := fresh "l" in
        let H1 := fresh in
        let H2 := fresh in
        first [ destruct (E1 s) as [l [H1 H2]];
                rewrite (new_events_app _ _ _ H1); exact H2
              | destruct (E2 s) as [l [H1 H2]];
                rewrite (new_events_app _ _ _ H1); exact H2
              | destruct (E3 s) as [l [H1 H2]];
                rewrite (new_events_app _ _ _ H1); exact H2 ]
    | _ => idtac
    end.
Qed.

(** ** Who writes which global *)

Lemma cell_kept_exec (W : world) (FIXDELAY : Z) (LOGDELAY : bool)
      (c : cell) (o : op) :
  writes o c = false -> frame (cell_kept c) (exec W FIXDELAY LOGDELAY o).
Proof.
  intros Hw.
  assert (Rr : forall s, cell_kept c s s) by (intros; reflexivity).
  assert (Rt : forall s1 s2 s3,
             cell_kept c s1 s2 -> cell_kept c s2 s3 -> cell_kept c s1 s3)
    by (unfold cell_kept; intros; congruence).
  assert (Rc : forall s k args, cell_kept c s (emit (Call k args) s))
    by (intros; destruct c; reflexivity).
  assert (Rq : forall s pcm a d, cell_kept c s (emit (AvailDelay pcm a d) s))
    by (intros; destruct c; reflexivity).
  assert (Rs : forall sl s, cell_kept c s (resolved W sl s)).
  { intros sl s. unfold cell_kept, resolved.
    destruct (is_null (statics s sl)); destruct c; reflexivity. }
  destruct o; cbn [exec];
    unfold snd_pcm_open, fake_callback, snd_async_add_pcm_handler,
      init_manglers, glutReshapeFunc, glViewport, glutReshapeWindow,
      faked_kbfunc, glutKeyboardFunc, faked_mousefunc, faked_motionfunc,
      glutMouseFunc, glutPassiveMotionFunc;
    destruct c; cbn [writes cell_eqb] in Hw; try discriminate Hw;
    repeat first
      [ apply (frame_ret _ Rr) | apply (frame_load _ Rr)
      | apply (frame_call W _ Rr Rc) | apply (frame_query W _ Rq)
      | apply (frame_resolve W _ Rs)
      | apply frame_store; intros; reflexivity
      | apply (frame_bind _ Rt); [| intros ?]
      | apply frame_if ].
Qed.

(** X15.  Each global has one writer: [fr_callback] is assigned only by
    [snd_async_add_pcm_handler], [fr_kbfunc] only by [glutKeyboardFunc],
    [fr_mousefunc] only by [glutMouseFunc], [fr_motionfunc] only by
    [glutPassiveMotionFunc], the stored rectangle only by [init_manglers]
    and [fs] only by [faked_kbfunc].  A run that does not contain the writer
    of a global leaves it as it was, whatever else happens. *)
Theorem single_writer
        (W : world) (FIXDELAY : Z) (LOGDELAY : bool)
        (c : cell) (os : list op) (s : shim) :
  forallb (fun o => negb (writes o c)) os = true ->
  read c (final (run W FIXDELAY LOGDELAY os s)) = read c s.
Proof.
  revert s. induction os as [| o rest IH]; cbn [run forallb]; intros s H.
  - reflexivity.
  - apply andb_true_iff in H. destruct H as [Ho Hrest].
    apply negb_true_iff in Ho.
    pose proof (cell_kept_exec W FIXDELAY LOGDELAY c o Ho s) as K.
    unfold bind. destruct (exec W FIXDELAY LOGDELAY o s) as [[] s1 | s1];
      cbn [final] in *.
    + rewrite (IH s1 Hrest). exact K.
    + exact K.
Qed.

Lemma single_writer_witness :
  returned (run quiet_world 1024 false
                [Op_glutMouseFunc (Host 4); Op_faked_kbfunc "f" 0 0;
                 Op_fake_callback 7; Op_snd_pcm_open 16 "hw:0" 0 0]
                (final (init_manglers quiet_world 2000 900 registered))) =
  Some tt /\
  read G_geometry
       (final (run quiet_world 1024 false
                   [Op_glutMouseFunc (Host 4); Op_faked_kbfunc "f" 0 0;
                    Op_fake_callback 7; Op_snd_pcm_open 16 "hw:0" 0 0]
                   (final (init_manglers quiet_world 2000 900 registered)))) =
  CRect (1600, 900, 200, 0).
Proof.
  split; [reflexivity |].
  exact (single_writer quiet_world 1024 false G_geometry
           [Op_glutMouseFunc (Host 4); Op_faked_kbfunc "f" 0 0;
            Op_fake_callback 7; Op_snd_pcm_open 16 "hw:0" 0 0]
           (final (init_manglers quiet_world 2000 900 registered)) eq_refl).
Defined.

(** ** Where called pointers come from *)

Lemma looked_up_snoc (l : list event) (e : event) :
  looked_up (l ++ [e]) =
  looked_up l ++ match e with Dlsym _ r => [r] | _ => [] end.
Proof. unfold looked_up. rewrite flat_map_app. cbn. now rewrite app_nil_r. Qed.

Lemma called_through_snoc (l : list event) (e : event) :
  called_through (l ++ [e]) =
  called_through l ++ match e with Call (Ptr f) _ => [f] | _ => [] end.
Proof. unfold called_through. rewrite flat_map_app. cbn. now rewrite app_nil_r. Qed.

Lemma provenance_mono (C C' : list funptr) (s : shim) :
  incl C C' -> provenance C s -> provenance C' s.
Proof.
  intros I [A [B K]]. split; [exact A | split].
  - intros f Hf. destruct (B f Hf); auto.
  - intros f Hf. destruct (K f Hf); auto.
Qed.

Lemma provenance_emit (C : list funptr) (e : event) (s : shim) :
  (forall f args, e = Call (Ptr f) args ->
                  In f (looked_up (log s)) \/ In f C) ->
  provenance C s -> provenance C (emit e s).
Proof.
  intros He [A [B K]]. split; [| split]; cbn [statics emit log fr_callback
    fr_kbfunc fr_mousefunc fr_motionfunc].
  - intros sl. destruct (A sl) as [N | I]; [now left | right].
    rewrite looked_up_snoc. apply in_or_app. now left.
  - exact B.
  - intros f. rewrite called_through_snoc, looked_up_snoc.
    intros Hf. apply in_app_or in Hf. destruct Hf as [Hf | Hf].
    + destruct (K f Hf) as [I | I]; [left | now right].
      apply in_or_app. now left.
    + destruct e as [? ? | [g |] args | |]; cbn in Hf; try contradiction.
      destruct Hf as [<- | []].
      destruct (He g args eq_refl) as [I | I]; [left | now right].
      rewrite app_nil_r. exact I.
Qed.

Lemma provenance_resolved (W : world) (C : list funptr) (sl : slot) (s : shim) :
  provenance C s ->
  provenance C (resolved W sl s) /\
  (target W s sl = NULL \/
   In (target W s sl) (looked_up (log (resolved W sl s)))).
Proof.
  intros P. unfold resolved, target.
  destruct (is_null (statics s sl)) eqn:N.
  - set (p := dlsym_next W (log s) (symbol sl)).
    assert (P' : provenance C (emit (Dlsym (symbol sl) p) s))
      by (apply provenance_emit; [discriminate | exact P]).
    assert (Ip : In p (looked_up (log (emit (Dlsym (symbol sl) p) s)))).
    { cbn [log emit]. rewrite looked_up_snoc. apply in_or_app. right. now left. }
    split; [| right; exact Ip].
    destruct P' as [A [B K]]. split; [| split; [exact B | exact K]].
    intros x. cbn [statics set_static log].
    destruct (slot_eqb x sl); [right; exact Ip | apply A].
  - split; [exact P |]. destruct P as [A _].
    destruct (A sl) as [E | I]; [now left | now right].
Qed.

Lemma provenance_call (W : world) (C : list funptr) (f : funptr)
      (args : list val) (s : shim) :
  f = NULL \/ In f (looked_up (log s)) \/ In f C ->
  provenance C s -> provenance C (final (call W (Ptr f) args s)).
Proof.
  intros Hf P. unfold call. destruct f; cbn [final]; [exact P | ..];
    (apply provenance_emit; [| exact P]);
    intros g a E; injection E as <- _;
    destruct Hf as [Hf | Hf]; (discriminate || exact Hf).
Qed.

(** Writing the rectangle or the flag has no bearing on provenance. *)
Lemma provenance_plain (C : list funptr) (s s' : shim) :
  statics s' = statics s -> log s' = log s ->
  fr_callback s' = fr_callback s -> fr_kbfunc s' = fr_kbfunc s ->
  fr_mousefunc s' = fr_mousefunc s -> fr_motionfunc s' = fr_motionfunc s ->
  provenance C s -> provenance C s'.
Proof.
  unfold provenance. intros -> -> -> -> -> ->. auto.
Qed.

Lemma provenance_store_callback (C : list funptr) (p : funptr) (s s' : shim) :
  In p C ->
  statics s' = statics s -> log s' = log s ->
  (forall f, In f [fr_callback s'; fr_kbfunc s'; fr_mousefunc s'; fr_motionfunc s'] ->
             f = p \/
             In f [fr_callback s; fr_kbfunc s; fr_mousefunc s; fr_motionfunc s]) ->
  provenance C s -> provenance C s'.
Proof.
  unfold provenance. intros Hp -> -> Hf [A [B K]].
  split; [exact A | split; [| exact K]].
  intros f I. destruct (Hf f I) as [-> | I']; [now right | now apply B].
Qed.

(** A call through a pointer of known provenance, and what follows it. *)
Lemma provenance_bind_call {A} (W : world) (C : list funptr) (f : funptr)
      (args : list val) (k : Z -> M A) (s : shim) :
  f = NULL \/ In f (looked_up (log s)) \/ In f C ->
  provenance C s ->
  (forall r s', provenance C s' -> provenance C (final (k r s'))) ->
  provenance C (final (bind (call W (Ptr f) args) k s)).
Proof.
  intros Hf P Hk. pose proof (provenance_call W C f args s Hf P) as Q.
  unfold bind. destruct (call W (Ptr f) args s) as [r s1 | s1]; cbn [final] in *.
  - now apply Hk.
  - exact Q.
Qed.

Ltac prov_state :=
  lazymatch goal with
  | H : provenance ?C ?s |- provenance ?C ?s => exact H
  | |- provenance _ (emit _ _) =>
      apply provenance_emit; [discriminate | prov_state]
  | |- provenance _ (resolved _ _ _) =>
      apply provenance_resolved; prov_state
  | |- provenance _ (set_fr_callback ?p ?s) =>
      apply (provenance_store_callback _ p s);
      [ now left | reflexivity | reflexivity
      | intros ?; cbn; intuition (subst; auto) | prov_state ]
  | |- provenance _ (set_fr_kbfunc ?p ?s) =>
      apply (provenance_store_callback _ p s);
      [ now left | reflexivity | reflexivity
      | intros ?; cbn; intuition (subst; auto) | prov_state ]
  | |- provenance _ (set_fr_mousefunc ?p ?s) =>
      apply (provenance_store_callback _ p s);
      [ now left | reflexivity | reflexivity
      | intros ?; cbn; intuition (subst; auto) | prov_state ]
  | |- provenance _ (set_fr_motionfunc ?p ?s) =>
      apply (provenance_store_callback _ p s);
      [ now left | reflexivity | reflexivity
      | intros ?; cbn; intuition (subst; auto) | prov_state ]
  | |- provenance _ (?g ?z ?s) =>
      apply (provenance_plain _ s); [reflexivity .. | prov_state]
  end.

Lemma resolve_bind {A} (W : world) (sl : slot) (k : funptr -> M A) (s : shim) :
  bind (resolve W sl) k s = k (target W s sl) (resolved W sl s).
Proof. unfold bind. now rewrite resolve_eq. Qed.

Lemma call_lib_bind {A} (W : world) (name : string) (args : list val)
      (k : Z -> M A) (s : shim) :
  bind (call W (Lib name) args) k s =
  k (call_result W (log s) (Lib name) args) (emit (Call (Lib name) args) s).
Proof. reflexivity. Qed.

Lemma query_bind {A} (W : world) (pcm : Z) (k : Z * Z -> M A) (s : shim) :
  bind (snd_pcm_avail_delay W pcm) k s =
  k (pcm_avail_delay W (log s) pcm)
    (emit (AvailDelay pcm (fst (pcm_avail_delay W (log s) pcm))
                      (snd (pcm_avail_delay W (log s) pcm))) s).
Proof. reflexivity. Qed.

Ltac prov_run :=
  repeat first
    [ rewrite resolve_bind
    | rewrite call_lib_bind
    | rewrite query_bind
    | progress cbn [bind load store ret final]
    | match goal with
      | |- context [if ?b then _ else _] => destruct b
      end ].

Ltac prov_side T B s :=
  cbn [log emit fr_callback fr_kbfunc fr_mousefunc fr_motionfunc
       set_fr_callback set_fr_kbfunc set_fr_mousefunc set_fr_motionfunc
       set_act_w set_act_h set_act_xoff set_act_yoff set_fs];
  lazymatch goal with
  | |- target _ _ ?sl = NULL \/ _ =>
      destruct (T sl) as [E | [I | I]];
      [left; exact E | right; left; exact I | right; right; exact I]
  | |- ?f = NULL \/ _ =>
      let H := fresh in
      assert (H : In f [fr_callback s; fr_kbfunc s; fr_mousefunc s;
                        fr_motionfunc s]) by (cbn; tauto);
      destruct (B f H) as [E | I];
      [left; exact E | right; right; exact I]
  end.

Lemma provenance_exec (W : world) (FIXDELAY : Z) (LOGDELAY : bool)
      (C : list funptr) (o : op) (s : shim) :
  provenance C s ->
  provenance (registers o ++ C) (final (exec W FIXDELAY LOGDELAY o s)).
Proof.
  intros P0.
  assert (P : provenance (registers o ++ C) s)
    by (apply (provenance_mono C); [apply incl_appr, incl_refl | exact P0]).
  clear P0.
  assert (T : forall sl,
             target W s sl = NULL \/
             In (target W s sl) (looked_up (log (resolved W sl s))) \/
             In (target W s sl) (registers o ++ C)).
  { intros sl. destruct (provenance_resolved W _ sl s P) as [_ [H | H]]; auto. }
  assert (B : forall f,
             In f [fr_callback s; fr_kbfunc s; fr_mousefunc s; fr_motionfunc s] ->
             f = NULL \/ In f (registers o ++ C)).
  { intros f Hf. destruct P as [_ [B _]]. exact (B f Hf). }
  destruct o; cbn [exec registers app] in *;
    unfold snd_pcm_open, fake_callback, snd_async_add_pcm_handler,
      init_manglers, glutReshapeFunc, glViewport, glutReshapeWindow,
      faked_kbfunc, glutKeyboardFunc, faked_mousefunc, faked_motionfunc,
      glutMouseFunc, glutPassiveMotionFunc;
    rewrite ?final_then_ret; prov_run;
    rewrite ?final_then_ret, ?resolved_fr_kbfunc;
    try prov_state;
    try (apply provenance_call; [prov_side T B s | prov_state]);
    try (apply provenance_bind_call;
         [ prov_side T B s | prov_state
         | intros r s' P'; cbn [store final]; prov_state ]).
Qed.

Lemma provenance_run (W : world) (FIXDELAY : Z) (LOGDELAY : bool)
      (os : list op) (C : list funptr) (s : shim) :
  provenance C s ->
  provenance (registered_by os ++ C) (final (run W FIXDELAY LOGDELAY os s)).
Proof.
  revert C s. induction os as [| o rest IH]; intros C s P; cbn [run].
  - exact P.
  - pose proof (provenance_exec W FIXDELAY LOGDELAY C o s P) as P1.
    assert (I : incl (registers o ++ C) (registered_by (o :: rest) ++ C)).
    { cbn [registered_by flat_map]. intros f Hf.
      apply in_app_or in Hf. apply in_or_app.
      destruct Hf as [Hf | Hf]; [left | now right].
      apply in_or_app. now left. }
    unfold bind. destruct (exec W FIXDELAY LOGDELAY o s) as [[] s1 | s1];
      cbn [final] in *.
    + apply (provenance_mono (registered_by rest ++ registers o ++ C)).
      * cbn [registered_by flat_map]. intros f Hf.
        apply in_app_or in Hf. apply in_or_app.
        destruct Hf as [Hf | Hf].
        -- left. apply in_or_app. now right.
        -- apply in_app_or in Hf. destruct Hf as [Hf | Hf]; [left | now right].
           apply in_or_app. now left.
      * apply IH. exact P1.
    + exact (provenance_mono _ _ _ I P1).
Qed.

(** X16.  Over the whole life of a process, every pointer the shim calls
    through is one that a lookup returned or one that the host registered
    as an audio, keyboard, mouse or motion callback; the handler given to
    [glutReshapeFunc] is not among them. *)
Theorem called_pointers_have_provenance
        (W : world) (FIXDELAY : Z) (LOGDELAY : bool) (os : list op) (f : funptr) :
  In f (called_through (log (final (run W FIXDELAY LOGDELAY os shim_init)))) ->
  In f (looked_up (log (final (run W FIXDELAY LOGDELAY os shim_init)))) \/
  In f (registered_by os).
Proof.
  intros Hf.
  assert (P0 : provenance [] shim_init).
  { split; [| split].
    - intros sl. now left.
    - intros g Hg. left. cbn in Hg. intuition.
    - intros g Hg. cbn in Hg. contradiction. }
  destruct (provenance_run W FIXDELAY LOGDELAY os [] shim_init P0) as [_ [_ K]].
  rewrite app_nil_r in K. exact (K f Hf).
Qed.

Lemma called_pointers_have_provenance_witness :
  In (Host 4)
     (called_through
        (log (final (run quiet_world 1024 false
                         [Op_glutReshapeFunc (Host 9); Op_glutMouseFunc (Host 4);
                          Op_faked_mousefunc 0 1 10 20] shim_init)))) /\
  (In (Host 4)
      (looked_up
         (log (final (run quiet_world 1024 false
                          [Op_glutReshapeFunc (Host 9); Op_glutMouseFunc (Host 4);
                           Op_faked_mousefunc 0 1 10 20] shim_init)))) \/
   In (Host 4)
      (registered_by [Op_glutReshapeFunc (Host 9); Op_glutMouseFunc (Host 4);
                      Op_faked_mousefunc 0 1 10 20])).
Proof.
  assert (H : In (Host 4)
                 (called_through
                    (log (final (run quiet_world 1024 false
                                     [Op_glutReshapeFunc (Host 9);
                                      Op_glutMouseFunc (Host 4);
                                      Op_faked_mousefunc 0 1 10 20]
                                     shim_init)))))
    by (cbn; tauto).
  split; [exact H |].
  exact (called_pointers_have_provenance quiet_world 1024 false _ _ H).
Defined.
